(** * bank-backend: the ledger handlers of [server.js]

    A shallow embedding of the Express handlers of [src/server.js] over
    an explicit model of the two MongoDB collections they use, and the
    properties of the ledger that follow from the code.

    Modelling conventions.
    - A JavaScript [Number] that carries money is an integer of [Z]; the
      value of [Math.random()] is a rational of [Q] in [0,1).  Arithmetic
      is exact (no rounding of doubles).
    - A collection is the list of its documents in insertion order;
      [findOne] returns the first match.
    - Every [await] on the store may throw: the environment says at which
      step and with which message.  Writes issued with [{ session }] are
      buffered in the session and reach the collections only at
      [commitTransaction]; [abortTransaction] drops them.
    - Requests are served one at a time. *)

From Stdlib Require Import ZArith QArith Qround String Ascii List Bool Lia.
From Stdlib Require Import Permutation Sorted.
Import ListNotations.
Open Scope string_scope.
Open Scope list_scope.
Open Scope Z_scope.

(** ** Documents *)

Definition ObjectId := nat.
Bind Scope nat_scope with ObjectId.

(** The sub-documents of [userSchema.transactions] (lines 28-37). *)
Record EmbeddedTransaction := mkEmbedded {
  e_type : string;
  e_amount : Z;
  e_date : Z;
  e_balance : Z;
  e_recipientName : string;
  e_recipientAccount : string;
  e_senderName : string;
  e_senderAccount : string
}.

(** [userSchema] (lines 22-38).  [accountNumber] has no default: it is
    absent until [/api/generate-account] sets it. *)
Module User.
Record t := mk {
  _id : ObjectId;
  name : string;
  email : string;
  password : string;
  accountNumber : option string;
  balance : Z;
  transactions : list EmbeddedTransaction
}.

Definition set_balance (u : t) (b : Z) : t :=
  mk (_id u) (name u) (email u) (password u) (accountNumber u) b
     (transactions u).

Definition set_accountNumber (u : t) (a : string) : t :=
  mk (_id u) (name u) (email u) (password u) (Some a) (balance u)
     (transactions u).
End User.

(** [transactionSchema] (lines 118-128). *)
Module Transaction.
Record t := mk {
  _id : ObjectId;
  userId : ObjectId;
  type : string;
  amount : Z;
  balance : Z;
  recipientId : option ObjectId;
  recipientName : option string;
  senderId : option ObjectId;
  senderName : option string;
  date : Z
}.
End Transaction.

(** ** The store *)

Record DB := mkDB {
  Users : list User.t;
  Transactions : list Transaction.t
}.

Definition empty_db : DB := mkDB [] [].

(** A write issued inside a session.  [doc.save({ session })] on a loaded
    user whose only modified path is [balance] is the update
    [{ _id } / $set { balance }]; on a new transaction it is an insert. *)
Inductive Write :=
| SetBalance (id : ObjectId) (b : Z)
| InsertTransaction (t : Transaction.t).

Fixpoint updateOne (id : ObjectId) (f : User.t -> User.t)
    (l : list User.t) : list User.t :=
  match l with
  | [] => []
  | u :: r =>
      if Nat.eqb (User._id u) id then f u :: r else u :: updateOne id f r
  end.

Definition apply_write (d : DB) (w : Write) : DB :=
  match w with
  | SetBalance id b =>
      mkDB (updateOne id (fun u => User.set_balance u b) (Users d))
           (Transactions d)
  | InsertTransaction t => mkDB (Users d) (Transactions d ++ [t])
  end.

Definition apply_writes (ws : list Write) (d : DB) : DB :=
  fold_left apply_write ws d.

(** Queries. *)
Definition findById (id : ObjectId) (d : DB) : option User.t :=
  find (fun u => Nat.eqb (User._id u) id) (Users d).

Definition by_email (e : string) (u : User.t) : bool :=
  String.eqb (User.email u) e.

Definition by_account (accountNumber name : string) (u : User.t) : bool :=
  match User.accountNumber u with
  | Some a => String.eqb a accountNumber
  | None => false
  end && String.eqb (User.name u) name.

Definition findOne (p : User.t -> bool) (d : DB) : option User.t :=
  find p (Users d).

(** ** The environment of one request *)

Record Env := mkEnv {
  (** [fault k = Some msg]: the [k]-th step of the handler, if it awaits
      the store, throws [Error(msg)]. *)
  fault : nat -> option string;
  (** The [_id] given to a document constructed at step [k]. *)
  new_ObjectId : nat -> ObjectId;
  (** [Date.now()] at step [k]. *)
  Date_now : nat -> Z;
  (** The value of [Math.random()]. *)
  Math_random : Q;
  (** [bcrypt.hash(password, rounds)], salt included. *)
  bcrypt_hash : string -> Z -> string;
  (** [bcrypt.compare(password, hash)]. *)
  bcrypt_compare : string -> string -> bool
}.

Definition storage_ok (env : Env) : Prop := forall k, fault env k = None.

(** ** The handler monad: state, exceptions and the pending session *)

Record St := mkSt {
  db : DB;
  pending : list Write;
  tick : nat
}.

Inductive Outcome (A : Type) :=
| Return (a : A) (s : St)
| Throw (error : string) (s : St).
Arguments Return {A} a s.
Arguments Throw {A} error s.

Definition Async (A : Type) := Env -> St -> Outcome A.

Definition ret {A} (a : A) : Async A := fun _ s => Return a s.

Definition bind {A B} (c : Async A) (k : A -> Async B) : Async B :=
  fun env s =>
    match c env s with
    | Return a s' => k a env s'
    | Throw e s' => Throw e s'
    end.

Definition throw {A} (message : string) : Async A :=
  fun _ s => Throw message s.

Definition try_catch {A} (body : Async A) (handler : string -> Async A)
    : Async A :=
  fun env s =>
    match body env s with
    | Return a s' => Return a s'
    | Throw e s' => handler e env s'
    end.

Notation "x <- c ;; k" := (bind c (fun x => k))
  (at level 61, c at next level, right associativity).
Notation "c ;; k" := (bind c (fun _ => k))
  (at level 61, right associativity).

Definition next (s : St) : St := mkSt (db s) (pending s) (S (tick s)).

(** An awaited call on the store: it throws when the environment says
    so, and otherwise runs [op]. *)
Definition await {A} (op : St -> A * St) : Async A :=
  fun env s =>
    match fault env (tick s) with
    | Some msg => Throw msg (next s)
    | None => let (a, s') := op s in Return a (next s')
    end.

Definition read {A} (q : DB -> A) : Async A :=
  await (fun s => (q (db s), s)).

Definition write_in_session (w : Write) : Async unit :=
  await (fun s => (tt, mkSt (db s) (pending s ++ [w]) (tick s))).

(** [mongoose.startSession()] followed by [session.startTransaction()]. *)
Definition startTransaction : Async unit :=
  fun _ s => Return tt (mkSt (db s) [] (tick s)).

Definition commitTransaction : Async unit :=
  await (fun s => (tt, mkSt (apply_writes (pending s) (db s)) [] (tick s))).

Definition abortTransaction : Async unit :=
  fun _ s => Return tt (mkSt (db s) [] (tick s)).

Definition endSession : Async unit :=
  fun _ s => Return tt (mkSt (db s) [] (tick s)).

(** [try { body } catch (error) { handler } finally { fin }]. *)
Definition try_catch_finally {A} (body : Async A)
    (handler : string -> Async A) (fin : Async unit) : Async A :=
  fun env s =>
    match try_catch body handler env s with
    | Return a s' =>
        match fin env s' with
        | Return _ s'' => Return a s''
        | Throw e s'' => Throw e s''
        end
    | Throw e s' =>
        match fin env s' with
        | Return _ s'' => Throw e s''
        | Throw e' s'' => Throw e' s''
        end
    end.

(** *** Model calls *)

Definition User_findById (id : ObjectId) : Async (option User.t) :=
  read (findById id).

Definition User_findOne (p : User.t -> bool) : Async (option User.t) :=
  read (findOne p).

(** [new User({...})]: the driver gives the document its [_id]. *)
Definition new_User (name email password : string) (balance : Z)
    (transactions : list EmbeddedTransaction) : Async User.t :=
  fun env s =>
    Return (User.mk (new_ObjectId env (tick s)) name email password None
                    balance transactions) (next s).

(** [user.save()] of a new document, outside any session.  The schema
    declares [email] unique (line 24): the insert is refused when the
    index already holds the address. *)
Definition User_insert (u : User.t) : Async unit :=
  fun env s =>
    match fault env (tick s) with
    | Some msg => Throw msg (next s)
    | None =>
        if existsb (by_email (User.email u)) (Users (db s))
        then Throw "E11000 duplicate key error" (next s)
        else Return tt (next (mkSt (mkDB (Users (db s) ++ [u])
                                         (Transactions (db s)))
                                   (pending s) (tick s)))
    end.

(** [user.save({ session })] of a loaded document whose [balance] was
    assigned. *)
Definition User_save (u : User.t) : Async unit :=
  write_in_session (SetBalance (User._id u) (User.balance u)).

(** [User.findByIdAndUpdate(id, { accountNumber }, { new: true })]. *)
Definition User_findByIdAndUpdate (id : ObjectId) (accountNumber : string)
    : Async (option User.t) :=
  await (fun s =>
    let d := mkDB (updateOne id (fun u => User.set_accountNumber u accountNumber)
                             (Users (db s)))
                  (Transactions (db s)) in
    (findById id d, mkSt d (pending s) (tick s))).

(** [new Transaction({...})]: [_id] from the driver, [date] from the
    schema default [Date.now]. *)
Definition new_Transaction (userId : ObjectId) (type : string)
    (amount balance : Z) (recipientId : option ObjectId)
    (recipientName : option string) (senderId : option ObjectId)
    (senderName : option string) : Async Transaction.t :=
  fun env s =>
    Return (Transaction.mk (new_ObjectId env (tick s)) userId type amount
                           balance recipientId recipientName senderId
                           senderName (Date_now env (tick s))) (next s).

Definition Transaction_save (t : Transaction.t) : Async unit :=
  write_in_session (InsertTransaction t).

(** [Transaction.find({ userId }).sort({ date: -1 })]: the documents of
    the owner, latest date first (insertion sort on [date]). *)
Definition owned_by (userId : ObjectId) (t : Transaction.t) : bool :=
  Nat.eqb (Transaction.userId t) userId.

Fixpoint insert_desc (t : Transaction.t) (l : list Transaction.t)
    : list Transaction.t :=
  match l with
  | [] => [t]
  | h :: r =>
      if Transaction.date h <? Transaction.date t
      then t :: h :: r
      else h :: insert_desc t r
  end.

Fixpoint sort_date_desc (l : list Transaction.t) : list Transaction.t :=
  match l with
  | [] => []
  | t :: r => insert_desc t (sort_date_desc r)
  end.

Definition Transaction_find_sorted (userId : ObjectId)
    : Async (list Transaction.t) :=
  read (fun d => sort_date_desc (filter (owned_by userId) (Transactions d))).

(** *** Library calls *)

Definition bcrypt_hash_ (password : string) (rounds : Z) : Async string :=
  fun env s => Return (bcrypt_hash env password rounds) (next s).

Definition bcrypt_compare_ (password hash : string) : Async bool :=
  fun env s => Return (bcrypt_compare env password hash) (next s).

Definition Math_random_ : Async Q :=
  fun env s => Return (Math_random env) s.

Definition Math_floor (x : Q) : Z := Qfloor x.

(** [Number.prototype.toString()] on an integer below 10^21: its decimal
    digits, with a leading minus sign when negative. *)
Definition digit_char (d : Z) : ascii := ascii_of_nat (48 + Z.to_nat d).

Fixpoint digits (fuel : nat) (n : Z) (acc : string) : string :=
  let acc' := String (digit_char (n mod 10)) acc in
  match fuel with
  | O => acc'
  | S f => if n <? 10 then acc' else digits f (n / 10) acc'
  end.

Definition Number_toString (n : Z) : string :=
  if n <? 0 then String "-" (digits 21 (- n) "") else digits 21 n "".

(** ** Requests and responses *)

(** [user.toObject()] with [password] deleted (lines 90-91). *)
Record UserResponse := mkUserResponse {
  r_id : ObjectId;
  r_name : string;
  r_email : string;
  r_accountNumber : option string;
  r_balance : Z;
  r_transactions : list EmbeddedTransaction
}.

Definition delete_password (u : User.t) : UserResponse :=
  mkUserResponse (User._id u) (User.name u) (User.email u)
                 (User.accountNumber u) (User.balance u)
                 (User.transactions u).

Inductive Body :=
| Message (message : string)
| MessageError (message error : string)
| UserObject (user : UserResponse)
| AccountNumber (accountNumber : option string)
| UserTransaction (user : User.t) (transaction : Transaction.t)
| SenderTransaction (sender : User.t) (senderTransaction : Transaction.t)
| TransactionList (transactions : list Transaction.t).

Inductive Response :=
| Json (status : Z) (body : Body)
| Unhandled (error : string).

Inductive Request :=
| Signup (name email password : string)
| Signin (email password : string)
| GenerateAccount (userId : ObjectId)
| PostTransaction (userId : ObjectId) (type : string) (amount : Z)
| Transfer (senderId : ObjectId) (recipientAccountNumber : string)
           (amount : Z) (recipientName : string)
| GetTransactions (userId : ObjectId).

(** ** Handlers *)

(** [POST /api/signup] (lines 43-70). *)
Definition post_signup (name email password : string) : Async Response :=
  try_catch
    (existingUser <- User_findOne (by_email email) ;;
     match existingUser with
     | Some _ => ret (Json 400 (Message "Email already registered"))
     | None =>
         hashedPassword <- bcrypt_hash_ password 10 ;;
         user <- new_User name email hashedPassword 0 [] ;;
         User_insert user ;;
         ret (Json 201 (Message "User created successfully"))
     end)
    (fun error => ret (Json 500 (MessageError "Error creating user" error))).

(** [POST /api/signin] (lines 73-97). *)
Definition post_signin (email password : string) : Async Response :=
  try_catch
    (user <- User_findOne (by_email email) ;;
     match user with
     | None => ret (Json 401 (Message "Invalid credentials"))
     | Some user =>
         isValidPassword <- bcrypt_compare_ password (User.password user) ;;
         if negb isValidPassword
         then ret (Json 401 (Message "Invalid credentials"))
         else ret (Json 200 (UserObject (delete_password user)))
     end)
    (fun error => ret (Json 500 (MessageError "Error signing in" error))).

(** [POST /api/generate-account] (lines 100-115).  When no user has the
    id, [findByIdAndUpdate] yields [null] and reading [user.accountNumber]
    throws a [TypeError], which the [catch] turns into a 500. *)
Definition post_generate_account (userId : ObjectId) : Async Response :=
  try_catch
    (random <- Math_random_ ;;
     let accountNumber :=
       Math_floor (random * inject_Z 9000000000)%Q + 1000000000 in
     user <- User_findByIdAndUpdate userId (Number_toString accountNumber) ;;
     match user with
     | Some user => ret (Json 200 (AccountNumber (User.accountNumber user)))
     | None => throw "Cannot read properties of null (reading 'accountNumber')"
     end)
    (fun error =>
       ret (Json 500 (MessageError "Error generating account number" error))).

(** [POST /api/transaction] (lines 133-170). *)
Definition post_transaction (userId : ObjectId) (type : string) (amount : Z)
    : Async Response :=
  startTransaction ;;
  try_catch_finally
    (user <- User_findById userId ;;
     match user with
     | None => throw "User not found"
     | Some user =>
         if String.eqb type "withdraw" && (User.balance user <? amount)
         then throw "Insufficient balance"
         else
           let user :=
             User.set_balance user
               (User.balance user
                + (if String.eqb type "deposit" then amount else - amount)) in
           User_save user ;;
           transaction <- new_Transaction userId type amount (User.balance user)
                                          None None None None ;;
           Transaction_save transaction ;;
           commitTransaction ;;
           ret (Json 200 (UserTransaction user transaction))
     end)
    (fun error => abortTransaction ;; ret (Json 400 (Message error)))
    endSession.

(** [POST /api/transfer] (lines 172-230).  [sender] and [recipient] are
    two documents loaded by two queries: when both queries return the
    same account they are still two copies, each with its own
    [balance]. *)
Definition post_transfer (senderId : ObjectId)
    (recipientAccountNumber : string) (amount : Z) (recipientName : string)
    : Async Response :=
  startTransaction ;;
  try_catch_finally
    (sender <- User_findById senderId ;;
     recipient <- User_findOne (by_account recipientAccountNumber recipientName) ;;
     match sender, recipient with
     | Some sender, Some recipient =>
         if User.balance sender <? amount
         then throw "Insufficient balance"
         else
           let sender := User.set_balance sender (User.balance sender - amount) in
           let recipient :=
             User.set_balance recipient (User.balance recipient + amount) in
           User_save sender ;;
           User_save recipient ;;
           senderTransaction <-
             new_Transaction (User._id sender) "transfer_sent" amount
                             (User.balance sender)
                             (Some (User._id recipient))
                             (Some (User.name recipient)) None None ;;
           recipientTransaction <-
             new_Transaction (User._id recipient) "transfer_received" amount
                             (User.balance recipient) None None
                             (Some (User._id sender))
                             (Some (User.name sender)) ;;
           Transaction_save senderTransaction ;;
           Transaction_save recipientTransaction ;;
           commitTransaction ;;
           ret (Json 200 (SenderTransaction sender senderTransaction))
     | _, _ => throw "Invalid sender or recipient"
     end)
    (fun error => abortTransaction ;; ret (Json 400 (Message error)))
    endSession.

(** [GET /api/transactions/:userId] (lines 232-240). *)
Definition get_transactions (userId : ObjectId) : Async Response :=
  try_catch
    (transactions <- Transaction_find_sorted userId ;;
     ret (Json 200 (TransactionList transactions)))
    (fun error => ret (Json 500 (Message error))).

(** The router. *)
Definition handle (req : Request) : Async Response :=
  match req with
  | Signup name email password => post_signup name email password
  | Signin email password => post_signin email password
  | GenerateAccount userId => post_generate_account userId
  | PostTransaction userId type amount => post_transaction userId type amount
  | Transfer senderId recipientAccountNumber amount recipientName =>
      post_transfer senderId recipientAccountNumber amount recipientName
  | GetTransactions userId => get_transactions userId
  end.

(** One request served from start to end: the response sent and the
    store left behind. *)
Definition run (h : Async Response) (env : Env) (d : DB) : Response * DB :=
  match h env (mkSt d [] 0) with
  | Return r s => (r, db s)
  | Throw e s => (Unhandled e, db s)
  end.

Definition serve (env : Env) (req : Request) (d : DB) : Response * DB :=
  run (handle req) env d.

(** A sequence of requests, each with its own environment. *)
Fixpoint serve_all (reqs : list (Env * Request)) (d : DB) : DB :=
  match reqs with
  | [] => d
  | (env, req) :: rest => serve_all rest (snd (serve env req d))
  end.

(** ** Predicates of the specification *)

(** Every stored balance is non-negative. *)
Definition all_nonneg (d : DB) : Prop :=
  Forall (fun u => 0 <= User.balance u) (Users d).

(** The operations of the core: register, assignAccountNumber,
    applyOperation with kind deposit or withdraw, transfer. *)
Definition core_operation (req : Request) : Prop :=
  match req with
  | Signup _ _ _ | GenerateAccount _ | Transfer _ _ _ _ => True
  | PostTransaction _ type _ => type = "deposit" \/ type = "withdraw"
  | Signin _ _ | GetTransactions _ => False
  end.

(** The amount that a deposit or a transfer adds to a balance is not
    negative. *)
Definition credit_nonneg (req : Request) : Prop :=
  match req with
  | PostTransaction _ type amount => type = "deposit" -> 0 <= amount
  | Transfer _ _ amount _ => 0 <= amount
  | _ => True
  end.

(** The record written last for an account, if any. *)
Definition last_record (id : ObjectId) (d : DB) : option Transaction.t :=
  last (map Some (filter (owned_by id) (Transactions d))) None.

(** The balance of an account that has a record is the balance of its
    last record. *)
Definition ledger_consistent (d : DB) : Prop :=
  forall id u t,
    findById id d = Some u -> last_record id d = Some t ->
    User.balance u = Transaction.balance t.

(** Every record belongs to an account of the store. *)
Definition records_owned (d : DB) : Prop :=
  forall t, In t (Transactions d) ->
    exists u, findById (Transaction.userId t) d = Some u.

(** Some account of the list has the id. *)
Definition has_account (id : ObjectId) (l : list User.t) : Prop :=
  exists u, find (fun u => Nat.eqb (User._id u) id) l = Some u.

(** The two facts that every request preserves together. *)
Definition ledger_invariant (d : DB) : Prop :=
  ledger_consistent d /\ records_owned d.

(** [_id] is the primary key of the users. *)
Definition unique_ids (d : DB) : Prop :=
  NoDup (map User._id (Users d)).

Definition is_digit (c : ascii) : bool :=
  (48 <=? nat_of_ascii c)%nat && (nat_of_ascii c <=? 57)%nat.

Fixpoint all_digits (s : string) : bool :=
  match s with
  | EmptyString => true
  | String c r => is_digit c && all_digits r
  end.

(** The number that a string of decimal digits denotes, with the power
    of ten of its length. *)
Definition digit_value (c : ascii) : Z := Z.of_nat (nat_of_ascii c) - 48.

Fixpoint decimal (s : string) : Z * Z :=
  match s with
  | EmptyString => (0, 1)
  | String c r => let (v, p) := decimal r in (digit_value c * p + v, 10 * p)
  end.

Definition decimal_value (s : string) : Z := fst (decimal s).

(** ** The documents written by the ledger handlers *)

(** The record that [/api/transaction] writes. *)
Definition transaction_record (env : Env) (userId : ObjectId) (type : string)
    (amount b : Z) : Transaction.t :=
  Transaction.mk (new_ObjectId env 2) userId type amount b
                 None None None None (Date_now env 2).

(** The two records that [/api/transfer] writes. *)
Definition sent_record (env : Env) (sender recipient : User.t) (amount : Z)
    : Transaction.t :=
  Transaction.mk (new_ObjectId env 4) (User._id sender) "transfer_sent" amount
                 (User.balance sender - amount)
                 (Some (User._id recipient)) (Some (User.name recipient))
                 None None (Date_now env 4).

Definition received_record (env : Env) (sender recipient : User.t)
    (amount : Z) : Transaction.t :=
  Transaction.mk (new_ObjectId env 5) (User._id recipient) "transfer_received"
                 amount (User.balance recipient + amount) None None
                 (Some (User._id sender)) (Some (User.name sender))
                 (Date_now env 5).

Definition set_balance_of (id : ObjectId) (b : Z) (l : list User.t)
    : list User.t :=
  updateOne id (fun u => User.set_balance u b) l.


(** The account that [/api/signup] stores. *)
Definition new_account (env : Env) (name email password : string) : User.t :=
  User.mk (new_ObjectId env 2) name email (bcrypt_hash env password 10) None
          0 [].

(** The number that [/api/generate-account] draws. *)
Definition drawn_number (env : Env) : Z :=
  Math_floor (Math_random env * inject_Z 9000000000)%Q + 1000000000.

Definition set_accountNumber_of (id : ObjectId) (a : string)
    (l : list User.t) : list User.t :=
  updateOne id (fun u => User.set_accountNumber u a) l.

(** A response is a success when its status is 200 or 201. *)
Definition succeeded (r : Response) : bool :=
  match r with
  | Json status _ => (status =? 200) || (status =? 201)
  | Unhandled _ => false
  end.


(** Latest first. *)
Definition date_ge (a b : Transaction.t) : Prop :=
  Transaction.date b <= Transaction.date a.

(** ** Sample environment and store

    The store of the scenario of the specification: Alice holds 150,
    Bob holds nothing; no record has been written yet. *)

Definition env_ok : Env :=
  mkEnv (fun _ => None)
        (fun k => (100 + k)%nat)
        (fun k => 1700000000000 + Z.of_nat k)
        (1 # 2)%Q
        (fun password _ => "$2a$10$" ++ password)%string
        (fun password hash => String.eqb ("$2a$10$" ++ password) hash).

Definition alice : User.t :=
  User.mk 1 "Alice" "alice@bank.test" "$2a$10$alice-secret"
          (Some "1234567890") 150 [].

Definition bob : User.t :=
  User.mk 2 "Bob" "bob@bank.test" "$2a$10$bob-secret"
          (Some "2222222222") 0 [].

Definition db_ab : DB := mkDB [alice; bob] [].

(** The same accounts after some traffic: three records of Alice and
    one of Bob, stored in an order that is not the order of their
    dates. *)
Definition record (id owner : ObjectId) (type : string) (amount balance : Z)
    (date : Z) : Transaction.t :=
  Transaction.mk id owner type amount balance None None None None date.

Definition db_history : DB :=
  mkDB [alice; bob]
       [record 10 1 "deposit" 200 200 1700000000300;
        record 11 2 "deposit" 10 10 1700000000200;
        record 12 1 "withdraw" 100 100 1700000000100;
        record 13 1 "deposit" 50 150 1700000000400].

(** ** Symbolic execution of a handler *)

(** Unfolds a handler down to the calls on the environment. *)
Ltac run_handler :=
  unfold serve, run, handle, post_signup, post_signin, post_generate_account,
    post_transaction, post_transfer, get_transactions, try_catch_finally,
    try_catch, bind, ret, throw, startTransaction, abortTransaction,
    endSession, commitTransaction, User_findById, User_findOne, User_save,
    Transaction_save, Transaction_find_sorted, User_findByIdAndUpdate,
    User_insert, new_User, new_Transaction, bcrypt_hash_, bcrypt_compare_,
    Math_random_, read, write_in_session, await, next; cbn.

(** Case analysis on the next fault of the environment. *)
Ltac split_fault :=
  match goal with
  | |- context [fault ?e ?k] =>
      let F := fresh "F" in destruct (fault e k) eqn:F; cbn
  end.

(** ** Further predicates and sample points *)

(** No two accounts have the same e-mail. *)
Definition emails_unique (d : DB) : Prop :=
  NoDup (map User.email (Users d)).

(** The embedded [transactions] array of every account is empty. *)
Definition no_embedded_history (d : DB) : Prop :=
  Forall (fun u => User.transactions u = []) (Users d).

(** Two versions of an account that differ at most in [accountNumber]
    and [balance]. *)
Definition same_identity (u u' : User.t) : Prop :=
  User._id u' = User._id u /\
  User.name u' = User.name u /\
  User.email u' = User.email u /\
  User.password u' = User.password u /\
  User.transactions u' = User.transactions u.

(** The two routes that write to the ledger. *)
Definition is_ledger_request (req : Request) : bool :=
  match req with
  | PostTransaction _ _ _ | Transfer _ _ _ _ => true
  | _ => false
  end.

(** The [_id] that a request gives to the account it creates, if it
    creates one. *)
Definition created_id (env : Env) (req : Request) : option ObjectId :=
  match req with
  | Signup _ _ _ => Some (new_ObjectId env 2)
  | _ => None
  end.

(** An environment whose storage throws at step [k] only. *)
Definition env_fault_at (k : nat) (msg : string) : Env :=
  mkEnv (fun i => if Nat.eqb i k then Some msg else None)
        (new_ObjectId env_ok) (Date_now env_ok) (Math_random env_ok)
        (bcrypt_hash env_ok) (bcrypt_compare env_ok).

(** A third account, registered but without an account number. *)
Definition carol : User.t :=
  User.mk 3 "Carol" "carol@bank.test" "$2a$10$carol-secret" None 20 [].

Definition db_abc : DB := mkDB [alice; bob; carol] [].

(** The accounts that a request may write: the one it names, the two
    parties of a transfer, the one a registration creates. *)
Definition may_write (env : Env) (req : Request) (d : DB) (id : ObjectId)
    : Prop :=
  match req with
  | Signup _ _ _ => id = new_ObjectId env 2
  | GenerateAccount userId | PostTransaction userId _ _ => id = userId
  | Transfer senderId acc _ nm =>
      id = senderId \/
      exists B, findOne (by_account acc nm) d = Some B /\ id = User._id B
  | Signin _ _ | GetTransactions _ => False
  end.
(** ** Facts about the store *)

Section Store.

Variable f : User.t -> User.t.
Hypothesis f_id : forall u, User._id (f u) = User._id u.

Lemma find_updateOne_same id l :
  find (fun u => Nat.eqb (User._id u) id) (updateOne id f l)
  = option_map f (find (fun u => Nat.eqb (User._id u) id) l).
Proof.
  induction l as [|u r IH]; simpl; [reflexivity|].
  destruct (Nat.eqb (User._id u) id) eqn:E; simpl.
  - rewrite f_id, E. reflexivity.
  - rewrite E. exact IH.
Qed.

Lemma find_updateOne_other id id' l :
  id' <> id ->
  find (fun u => Nat.eqb (User._id u) id') (updateOne id f l)
  = find (fun u => Nat.eqb (User._id u) id') l.
Proof.
  intros Hne. induction l as [|u r IH]; simpl; [reflexivity|].
  destruct (Nat.eqb (User._id u) id) eqn:E; simpl.
  - rewrite f_id. apply Nat.eqb_eq in E.
    destruct (Nat.eqb (User._id u) id') eqn:E'; [|reflexivity].
    apply Nat.eqb_eq in E'. congruence.
  - destruct (Nat.eqb (User._id u) id'); [reflexivity|exact IH].
Qed.

Lemma Forall_updateOne (P : User.t -> Prop) id l :
  (forall u, P u -> P (f u)) -> Forall P l -> Forall P (updateOne id f l).
Proof.
  intros HP. induction 1 as [|u r Hu Hr IH]; simpl; [constructor|].
  destruct (Nat.eqb (User._id u) id); constructor; auto.
Qed.

Lemma map_id_updateOne id l :
  map User._id (updateOne id f l) = map User._id l.
Proof.
  induction l as [|u r IH]; simpl; [reflexivity|].
  destruct (Nat.eqb (User._id u) id); simpl; [rewrite f_id|rewrite IH];
    reflexivity.
Qed.

End Store.

Lemma updateOne_absent f id l :
  find (fun u => Nat.eqb (User._id u) id) l = None -> updateOne id f l = l.
Proof.
  induction l as [|u r IH]; simpl; [reflexivity|].
  destruct (Nat.eqb (User._id u) id); [discriminate|].
  intros H. rewrite IH by exact H. reflexivity.
Qed.

Lemma findById_id id d u : findById id d = Some u -> User._id u = id.
Proof.
  unfold findById. intros H. apply find_some in H.
  apply Nat.eqb_eq. apply H.
Qed.

Lemma findById_In id d u : findById id d = Some u -> In u (Users d).
Proof. unfold findById. intros H. apply find_some in H. apply H. Qed.


(** ** What each ledger handler does *)

Lemma post_transaction_run env d userId type amount :
  let r := run (post_transaction userId type amount) env d in
  (snd r = d /\ exists msg, fst r = Json 400 (Message msg))
  \/ (exists user,
        findById userId d = Some user /\
        String.eqb type "withdraw" && (User.balance user <? amount) = false /\
        let b := User.balance user
                 + (if String.eqb type "deposit" then amount else - amount) in
        let tx := transaction_record env userId type amount b in
        fst r = Json 200 (UserTransaction (User.set_balance user b) tx) /\
        snd r = mkDB (set_balance_of userId b (Users d))
                     (Transactions d ++ [tx])).
Proof.
  run_handler.
  split_fault. { left. split; eauto. }
  destruct (findById userId d) as [user|] eqn:Hu; cbn.
  2:{ left. split; eauto. }
  destruct (String.eqb type "withdraw" && (User.balance user <? amount))
    eqn:Hc; cbn.
  { left; split; eauto. }
  repeat (split_fault; [left; split; eauto|]).
  right. exists user. rewrite (findById_id _ _ _ Hu). auto.
Qed.

Lemma post_transaction_ok env d userId type amount :
  storage_ok env ->
  run (post_transaction userId type amount) env d =
  match findById userId d with
  | None => (Json 400 (Message "User not found"), d)
  | Some user =>
      if String.eqb type "withdraw" && (User.balance user <? amount)
      then (Json 400 (Message "Insufficient balance"), d)
      else
        let b := User.balance user
                 + (if String.eqb type "deposit" then amount else - amount) in
        let tx := transaction_record env userId type amount b in
        (Json 200 (UserTransaction (User.set_balance user b) tx),
         mkDB (set_balance_of userId b (Users d)) (Transactions d ++ [tx]))
  end.
Proof.
  intros Hok. run_handler. rewrite Hok. cbn.
  destruct (findById userId d) as [user|] eqn:Hu; cbn; [|reflexivity].
  destruct (String.eqb type "withdraw" && (User.balance user <? amount));
    cbn; [reflexivity|].
  rewrite !Hok. cbn. rewrite (findById_id _ _ _ Hu). reflexivity.
Qed.

Lemma post_transfer_run env d senderId acc amount nm :
  let r := run (post_transfer senderId acc amount nm) env d in
  (snd r = d /\ exists msg, fst r = Json 400 (Message msg))
  \/ (exists sender recipient,
        findById senderId d = Some sender /\
        findOne (by_account acc nm) d = Some recipient /\
        amount <= User.balance sender /\
        let ts := sent_record env sender recipient amount in
        let tr := received_record env sender recipient amount in
        fst r = Json 200 (SenderTransaction
                            (User.set_balance sender
                               (User.balance sender - amount)) ts) /\
        snd r = mkDB (set_balance_of (User._id recipient)
                        (User.balance recipient + amount)
                        (set_balance_of senderId
                           (User.balance sender - amount) (Users d)))
                     (Transactions d ++ [ts; tr])).
Proof.
  run_handler.
  split_fault. { left. split; eauto. }
  split_fault. { left. split; eauto. }
  destruct (findById senderId d) as [sender|] eqn:Hs; cbn.
  2:{ left. destruct (findOne (by_account acc nm) d); cbn; split; eauto. }
  destruct (findOne (by_account acc nm) d) as [recipient|] eqn:Hr; cbn.
  2:{ left. split; eauto. }
  destruct (User.balance sender <? amount) eqn:Hc; cbn.
  { left; split; eauto. }
  apply Z.ltb_ge in Hc.
  repeat (split_fault; [left; split; eauto|]).
  right. exists sender, recipient.
  unfold sent_record, received_record, set_balance_of.
  rewrite (findById_id _ _ _ Hs), <- app_assoc. auto.
Qed.

Lemma post_transfer_ok env d senderId acc amount nm :
  storage_ok env ->
  run (post_transfer senderId acc amount nm) env d =
  match findById senderId d, findOne (by_account acc nm) d with
  | Some sender, Some recipient =>
      if User.balance sender <? amount
      then (Json 400 (Message "Insufficient balance"), d)
      else
        let ts := sent_record env sender recipient amount in
        let tr := received_record env sender recipient amount in
        (Json 200 (SenderTransaction
                     (User.set_balance sender (User.balance sender - amount))
                     ts),
         mkDB (set_balance_of (User._id recipient)
                 (User.balance recipient + amount)
                 (set_balance_of senderId
                    (User.balance sender - amount) (Users d)))
              (Transactions d ++ [ts; tr]))
  | _, _ => (Json 400 (Message "Invalid sender or recipient"), d)
  end.
Proof.
  intros Hok. run_handler. rewrite !Hok. cbn.
  destruct (findById senderId d) as [sender|] eqn:Hs; cbn.
  2:{ destruct (findOne (by_account acc nm) d); reflexivity. }
  destruct (findOne (by_account acc nm) d) as [recipient|]; cbn;
    [|reflexivity].
  destruct (User.balance sender <? amount); cbn; [reflexivity|].
  rewrite !Hok. cbn. unfold sent_record, received_record, set_balance_of.
  rewrite (findById_id _ _ _ Hs), <- app_assoc. reflexivity.
Qed.

Lemma find_none_existsb {A} (p : A -> bool) l :
  find p l = None -> existsb p l = false.
Proof.
  induction l as [|a r IH]; simpl; [reflexivity|].
  destruct (p a); [discriminate|exact IH].
Qed.

Lemma post_signup_run env d name email password :
  let r := run (post_signup name email password) env d in
  (snd r = d /\ succeeded (fst r) = false)
  \/ (findOne (by_email email) d = None /\
      fst r = Json 201 (Message "User created successfully") /\
      snd r = mkDB (Users d ++ [new_account env name email password])
                   (Transactions d)).
Proof.
  run_handler.
  split_fault. { left. split; reflexivity. }
  destruct (findOne (by_email email) d) eqn:Hf; cbn.
  { left. split; reflexivity. }
  split_fault. { left. split; reflexivity. }
  unfold findOne in Hf. rewrite (find_none_existsb _ _ Hf). cbn.
  right. auto.
Qed.

Lemma post_signup_ok env d name email password :
  storage_ok env ->
  run (post_signup name email password) env d =
  match findOne (by_email email) d with
  | Some _ => (Json 400 (Message "Email already registered"), d)
  | None =>
      (Json 201 (Message "User created successfully"),
       mkDB (Users d ++ [new_account env name email password])
            (Transactions d))
  end.
Proof.
  intros Hok. run_handler. rewrite Hok. cbn.
  destruct (findOne (by_email email) d) eqn:Hf; cbn; [reflexivity|].
  rewrite Hok. unfold findOne in Hf. rewrite (find_none_existsb _ _ Hf).
  reflexivity.
Qed.

Lemma post_generate_account_run env d userId :
  let r := run (post_generate_account userId) env d in
  (snd r = d /\ succeeded (fst r) = false)
  \/ (exists u, findById userId d = Some u /\
      let a := Number_toString (drawn_number env) in
      fst r = Json 200 (AccountNumber (Some a)) /\
      snd r = mkDB (set_accountNumber_of userId a (Users d))
                   (Transactions d)).
Proof.
  run_handler.
  split_fault. { left. split; reflexivity. }
  unfold findById at 1. cbn.
  rewrite find_updateOne_same by reflexivity.
  fold (findById userId d).
  destruct (findById userId d) as [u|] eqn:Hu; cbn.
  - right. exists u. auto.
  - left. unfold findById in Hu. rewrite updateOne_absent by exact Hu.
    destruct d; split; reflexivity.
Qed.

Lemma post_generate_account_ok env d userId :
  storage_ok env ->
  run (post_generate_account userId) env d =
  let a := Number_toString (drawn_number env) in
  match findById userId d with
  | Some u =>
      (Json 200 (AccountNumber (Some a)),
       mkDB (set_accountNumber_of userId a (Users d)) (Transactions d))
  | None =>
      (Json 500
         (MessageError "Error generating account number"
            "Cannot read properties of null (reading 'accountNumber')"), d)
  end.
Proof.
  intros Hok. run_handler. rewrite Hok. cbn.
  unfold findById at 1. cbn.
  rewrite find_updateOne_same by reflexivity.
  fold (findById userId d).
  destruct (findById userId d) as [u|] eqn:Hu; cbn; [reflexivity|].
  unfold findById in Hu. rewrite updateOne_absent by exact Hu.
  destruct d; reflexivity.
Qed.

Lemma post_signin_run env d email password :
  snd (run (post_signin email password) env d) = d.
Proof.
  run_handler. split_fault; [reflexivity|].
  destruct (findOne (by_email email) d) as [u|]; cbn; [|reflexivity].
  destruct (bcrypt_compare env password (User.password u)); reflexivity.
Qed.

Lemma get_transactions_run env d userId :
  snd (run (get_transactions userId) env d) = d.
Proof. run_handler. split_fault; reflexivity. Qed.

Lemma get_transactions_ok env d userId :
  storage_ok env ->
  fst (run (get_transactions userId) env d) =
  Json 200 (TransactionList
              (sort_date_desc (filter (owned_by userId) (Transactions d)))).
Proof. intros Hok. run_handler. rewrite Hok. reflexivity. Qed.

(** ** Non-negative balances *)

Lemma storage_ok_env_ok : storage_ok env_ok.
Proof. intros k. reflexivity. Qed.

Lemma all_nonneg_set_balance id b l :
  0 <= b ->
  Forall (fun u => 0 <= User.balance u) l ->
  Forall (fun u => 0 <= User.balance u) (set_balance_of id b l).
Proof.
  intros Hb. unfold set_balance_of. apply Forall_updateOne.
  intros u _. exact Hb.
Qed.

Lemma all_nonneg_In d u : all_nonneg d -> In u (Users d) -> 0 <= User.balance u.
Proof.
  unfold all_nonneg. rewrite Forall_forall. intros H Hin. exact (H u Hin).
Qed.

Lemma findOne_In p d u : findOne p d = Some u -> In u (Users d).
Proof. unfold findOne. intros H. apply find_some in H. apply H. Qed.

(** C1, as the code has it: an operation of the core that credits a
    non-negative amount (a deposit or a transfer of [amount >= 0]; a
    withdrawal of any amount; a registration; an account-number
    assignment), started in a store where every balance is [>= 0], ends
    in a store where every balance is [>= 0], whatever the storage
    does. *)
Theorem balances_stay_nonneg env req d :
  core_operation req ->
  credit_nonneg req ->
  all_nonneg d ->
  all_nonneg (snd (serve env req d)).
Proof.
  intros Hcore Hamt Hd. destruct req as
    [name email password | email password | userId | userId type amount
    | senderId acc amount nm | userId]; unfold serve, handle; cbn in *.
  - destruct (post_signup_run env d name email password)
      as [[-> _]|(_ & _ & ->)]; [exact Hd|].
    unfold all_nonneg in *. cbn. apply Forall_app. split; [exact Hd|].
    constructor; [cbn; lia|constructor].
  - contradiction.
  - destruct (post_generate_account_run env d userId)
      as [[-> _]|(u & _ & _ & ->)]; [exact Hd|].
    unfold all_nonneg in *. cbn. unfold set_accountNumber_of.
    apply Forall_updateOne; [|exact Hd]. intros v Hv. exact Hv.
  - destruct (post_transaction_run env d userId type amount)
      as [[-> _]|(u & Hu & Hc & _ & ->)]; [exact Hd|].
    unfold all_nonneg in *. cbn. apply all_nonneg_set_balance; [|exact Hd].
    pose proof (all_nonneg_In d u Hd (findById_In _ _ _ Hu)) as Hb.
    destruct Hcore as [->| ->]; cbn in *.
    + specialize (Hamt eq_refl). lia.
    + apply Z.ltb_ge in Hc. lia.
  - destruct (post_transfer_run env d senderId acc amount nm)
      as [[-> _]|(s & r & Hs & Hr & Hle & _ & ->)]; [exact Hd|].
    pose proof (all_nonneg_In d r Hd (findOne_In _ _ _ Hr)) as Hb.
    unfold all_nonneg in *. cbn.
    apply all_nonneg_set_balance; [lia|].
    apply all_nonneg_set_balance; [lia|exact Hd].
  - contradiction.
Qed.

Lemma balances_stay_nonneg_witness :
  all_nonneg (snd (serve env_ok (Transfer 1 "2222222222" 100 "Bob") db_ab)).
Proof.
  apply balances_stay_nonneg.
  - exact I.
  - cbn. lia.
  - unfold all_nonneg. cbn. repeat constructor; cbn; lia.
Defined.

(** C1 as stated fails: a deposit of [-200] is an operation of the core,
    starts in a store where every balance is [>= 0], and leaves Alice
    with [-50]. *)
Lemma negative_deposit_breaks_nonneg :
  core_operation (PostTransaction 1 "deposit" (-200)) /\
  all_nonneg db_ab /\
  ~ all_nonneg (snd (serve env_ok (PostTransaction 1 "deposit" (-200)) db_ab)).
Proof.
  split; [left; reflexivity|]. split.
  - unfold all_nonneg. cbn. repeat constructor; cbn; lia.
  - unfold all_nonneg. cbn. intros H. inversion H as [|? ? Hneg _]; subst.
    cbn in Hneg. lia.
Qed.

(** ** Transfers between two accounts *)







(** ** The balance and the last record *)

Lemma has_account_In u l : In u l -> has_account (User._id u) l.
Proof.
  intros Hin. unfold has_account.
  destruct (find (fun v => Nat.eqb (User._id v) (User._id u)) l) eqn:E;
    [eauto|].
  pose proof (find_none _ _ E u Hin) as H. cbn in H.
  rewrite Nat.eqb_refl in H. discriminate.
Qed.

Lemma has_account_updateOne f id id' l :
  (forall u, User._id (f u) = User._id u) ->
  has_account id l -> has_account id (updateOne id' f l).
Proof.
  intros Hf [u Hu]. unfold has_account.
  destruct (Nat.eq_dec id id') as [->|Hne].
  - rewrite find_updateOne_same by exact Hf. rewrite Hu. cbn. eauto.
  - rewrite find_updateOne_other by assumption. eauto.
Qed.

Lemma has_account_app id l l' : has_account id l -> has_account id (l ++ l').
Proof.
  intros [u Hu]. exists u. induction l as [|v r IH]; cbn in *; [discriminate|].
  destruct (Nat.eqb (User._id v) id); [exact Hu|auto].
Qed.

Lemma find_app_none {A} (p : A -> bool) l l' :
  find p l = None -> find p (l ++ l') = find p l'.
Proof.
  induction l as [|a r IH]; cbn; [reflexivity|].
  destruct (p a); [discriminate|exact IH].
Qed.

Lemma find_app_some {A} (p : A -> bool) l l' a :
  find p l = Some a -> find p (l ++ l') = Some a.
Proof.
  induction l as [|b r IH]; cbn; [discriminate|].
  destruct (p b); [auto|exact IH].
Qed.

Lemma last_record_app id us txs t :
  last_record id (mkDB us (txs ++ [t])) =
  if owned_by id t then Some t else last_record id (mkDB us txs).
Proof.
  unfold last_record. cbn. rewrite filter_app. cbn.
  destruct (owned_by id t).
  - rewrite map_app. cbn. apply last_last.
  - rewrite app_nil_r. reflexivity.
Qed.

Lemma last_record_In id d t :
  last_record id d = Some t ->
  In t (Transactions d) /\ Transaction.userId t = id.
Proof.
  unfold last_record.
  assert (H : forall l, last (map Some l) None = Some t -> In t l).
  { induction l as [|a r IH]; cbn; [discriminate|].
    destruct r as [|b r']; cbn in *.
    - intros [= ->]. auto.
    - intros Hl. right. apply IH. exact Hl. }
  intros Hl. apply H in Hl. apply filter_In in Hl. destruct Hl as [Hin Ho].
  split; [exact Hin|]. apply Nat.eqb_eq. exact Ho.
Qed.

Lemma ledger_invariant_empty : ledger_invariant empty_db.
Proof.
  split.
  - intros id u t H. discriminate.
  - intros t [].
Qed.

Lemma ledger_invariant_signup d u :
  User.balance u = 0 ->
  ledger_invariant d ->
  ledger_invariant (mkDB (Users d ++ [u]) (Transactions d)).
Proof.
  intros Hb [Hc Ho]. split.
  - intros id v t Hv Ht. unfold findById in Hv. cbn in Hv.
    destruct (find (fun w => Nat.eqb (User._id w) id) (Users d)) as [w|] eqn:E.
    + rewrite (find_app_some _ _ _ _ E) in Hv. injection Hv as <-.
      apply (Hc id w t); [exact E|exact Ht].
    + exfalso. apply last_record_In in Ht. cbn in Ht. destruct Ht as [Hin Hid].
      destruct (Ho t Hin) as [w Hw]. rewrite Hid in Hw.
      unfold findById in Hw. congruence.
  - intros t Hin. cbn in Hin. destruct (Ho t Hin) as [w Hw].
    apply (has_account_app _ _ [u]). exists w. exact Hw.
Qed.

Lemma ledger_invariant_accountNumber d id a :
  ledger_invariant d ->
  ledger_invariant (mkDB (set_accountNumber_of id a (Users d))
                         (Transactions d)).
Proof.
  intros [Hc Ho]. unfold set_accountNumber_of. split.
  - intros id' v t Hv Ht. unfold findById in Hv. cbn in Hv.
    destruct (Nat.eq_dec id' id) as [->|Hne].
    + rewrite find_updateOne_same in Hv by reflexivity.
      destruct (find (fun w => Nat.eqb (User._id w) id) (Users d))
        as [w|] eqn:E; [|discriminate].
      cbn in Hv. injection Hv as <-. cbn. apply (Hc id w t); assumption.
    + rewrite find_updateOne_other in Hv by (auto || reflexivity).
      apply (Hc id' v t); assumption.
  - intros t Hin. cbn in Hin. apply has_account_updateOne; [reflexivity|].
    apply (Ho t Hin).
Qed.

Lemma ledger_invariant_write d id b t :
  has_account id (Users d) ->
  Transaction.userId t = id ->
  Transaction.balance t = b ->
  ledger_invariant d ->
  ledger_invariant (mkDB (set_balance_of id b (Users d))
                         (Transactions d ++ [t])).
Proof.
  intros Hacc Hid Hbal [Hc Ho]. unfold set_balance_of. split.
  - intros id' v t' Hv Ht. unfold findById in Hv. cbn in Hv.
    rewrite last_record_app in Ht. unfold owned_by in Ht. rewrite Hid in Ht.
    destruct (Nat.eq_dec id' id) as [->|Hne].
    + rewrite Nat.eqb_refl in Ht. injection Ht as <-.
      rewrite find_updateOne_same in Hv by reflexivity.
      destruct (find (fun w => Nat.eqb (User._id w) id) (Users d));
        [|discriminate].
      cbn in Hv. injection Hv as <-. cbn. congruence.
    + rewrite find_updateOne_other in Hv by (auto || reflexivity).
      assert (E : Nat.eqb id id' = false) by (apply Nat.eqb_neq; congruence).
      rewrite E in Ht. apply (Hc id' v t'); [exact Hv|].
      destruct d; exact Ht.
  - intros t' Hin. cbn in Hin. apply in_app_or in Hin.
    apply has_account_updateOne; [reflexivity|].
    destruct Hin as [Hin|[<-|[]]]; [apply (Ho t' Hin)|].
    rewrite Hid. exact Hacc.
Qed.

Lemma ledger_invariant_step env req d :
  ledger_invariant d -> ledger_invariant (snd (serve env req d)).
Proof.
  intros Hd. destruct req as
    [name email password | email password | userId | userId type amount
    | senderId acc amount nm | userId]; unfold serve, handle.
  - destruct (post_signup_run env d name email password)
      as [[-> _]|(_ & _ & ->)]; [exact Hd|].
    apply ledger_invariant_signup; [reflexivity|exact Hd].
  - rewrite post_signin_run. exact Hd.
  - destruct (post_generate_account_run env d userId)
      as [[-> _]|(u & _ & _ & ->)]; [exact Hd|].
    apply ledger_invariant_accountNumber. exact Hd.
  - destruct (post_transaction_run env d userId type amount)
      as [[-> _]|(u & Hu & _ & _ & ->)]; [exact Hd|].
    apply ledger_invariant_write; [exists u; exact Hu|reflexivity..|exact Hd].
  - destruct (post_transfer_run env d senderId acc amount nm)
      as [[-> _]|(s & r & Hs & Hr & _ & _ & ->)]; [exact Hd|].
    change (Transactions d ++
              [sent_record env s r amount; received_record env s r amount])
      with (Transactions d ++
              [sent_record env s r amount] ++ [received_record env s r amount]).
    rewrite app_assoc.
    apply (ledger_invariant_write
             (mkDB (set_balance_of senderId (User.balance s - amount) (Users d))
                   (Transactions d ++ [sent_record env s r amount]))).
    + cbn. apply has_account_updateOne; [reflexivity|].
      apply has_account_In. exact (findOne_In _ _ _ Hr).
    + reflexivity.
    + reflexivity.
    + apply ledger_invariant_write; [exists s; exact Hs| |reflexivity|exact Hd].
      cbn. exact (findById_id _ _ _ Hs).
  - rewrite get_transactions_run. exact Hd.
Qed.

Lemma ledger_invariant_serve_all reqs d :
  ledger_invariant d -> ledger_invariant (serve_all reqs d).
Proof.
  revert d. induction reqs as [|[env req] rest IH]; cbn; intros d Hd;
    [exact Hd|].
  apply IH. apply ledger_invariant_step. exact Hd.
Qed.


(** ** Withdrawals beyond the balance *)

(** C4: a withdrawal of more than the balance of an existing account
    leaves the store as it was (same balance, no record appended) and is
    answered with status 400; when the storage does not fail the message
    is the insufficient-funds one. *)
Theorem withdraw_beyond_balance env d userId amount u :
  findById userId d = Some u ->
  User.balance u < amount ->
  let r := serve env (PostTransaction userId "withdraw" amount) d in
  snd r = d /\
  findById userId (snd r) = Some u /\
  Transactions (snd r) = Transactions d /\
  (exists msg, fst r = Json 400 (Message msg)) /\
  (storage_ok env -> fst r = Json 400 (Message "Insufficient balance")).
Proof.
  intros Hu Hlt r. subst r. unfold serve, handle.
  assert (Hc : String.eqb "withdraw" "withdraw"
               && (User.balance u <? amount) = true).
  { cbn. apply Z.ltb_lt. exact Hlt. }
  destruct (post_transaction_run env d userId "withdraw" amount)
    as [[Hd Hm]|(v & Hv & Hc' & _)].
  - rewrite Hd. repeat split; auto.
    intros Hok. rewrite (post_transaction_ok env d userId _ amount Hok), Hu, Hc.
    reflexivity.
  - rewrite Hu in Hv. injection Hv as <-. congruence.
Qed.

Lemma withdraw_beyond_balance_witness :
  snd (serve env_ok (PostTransaction 1 "withdraw" 200) db_ab) = db_ab.
Proof.
  apply (withdraw_beyond_balance env_ok db_ab 1 200 alice).
  - reflexivity.
  - cbn. lia.
Defined.

(** ** A transfer to oneself *)




(** ** Amounts that are not positive *)



(** ** Resolution of the two parties of a transfer *)

Lemma by_account_spec acc nm u :
  by_account acc nm u = true <->
  User.accountNumber u = Some acc /\ User.name u = nm.
Proof.
  unfold by_account. rewrite andb_true_iff, String.eqb_eq.
  destruct (User.accountNumber u) as [a|].
  - rewrite String.eqb_eq. split.
    + intros [-> ->]. auto.
    + intros [[= ->] ->]. auto.
  - split; [intros [? _]; discriminate|intros [? _]; discriminate].
Qed.

Lemma findOne_none_iff p d :
  findOne p d = None <-> forall u, In u (Users d) -> p u = false.
Proof.
  unfold findOne. split.
  - intros H u Hin. exact (find_none _ _ H u Hin).
  - intros H. destruct (find p (Users d)) as [u|] eqn:E; [|reflexivity].
    apply find_some in E. destruct E as [Hin Hp].
    rewrite (H u Hin) in Hp. discriminate.
Qed.

(** C7: the recipient is the first account whose number and name both
    equal the ones given.  When no account has both, or when the sender
    id is the id of no account, the transfer leaves the store as it was
    and is answered with status 400; when the storage does not fail the
    message is the invalid-counterparty one. *)
Theorem transfer_invalid_counterparty env d senderId acc nm amount :
  findById senderId d = None \/
  (forall u, In u (Users d) ->
     ~ (User.accountNumber u = Some acc /\ User.name u = nm)) ->
  let r := serve env (Transfer senderId acc amount nm) d in
  snd r = d /\
  (exists msg, fst r = Json 400 (Message msg)) /\
  (storage_ok env -> fst r = Json 400 (Message "Invalid sender or recipient")).
Proof.
  intros H r. subst r. unfold serve, handle.
  assert (Hnone : findById senderId d = None
                  \/ findOne (by_account acc nm) d = None).
  { destruct H as [H|H]; [left; exact H|right].
    apply findOne_none_iff. intros u Hin.
    destruct (by_account acc nm u) eqn:E; [|reflexivity].
    apply by_account_spec in E. destruct (H u Hin E). }
  destruct (post_transfer_run env d senderId acc amount nm)
    as [[Hd Hm]|(s & t & Hs & Ht & _)].
  - rewrite Hd. repeat split; auto.
    intros Hok. rewrite (post_transfer_ok env d senderId acc amount nm Hok).
    destruct Hnone as [-> | ->]; [reflexivity|].
    destruct (findById senderId d); reflexivity.
  - destruct Hnone; congruence.
Qed.

Lemma transfer_invalid_counterparty_witness :
  snd (serve env_ok (Transfer 1 "2222222222" 100 "Alice") db_ab) = db_ab.
Proof.
  apply (transfer_invalid_counterparty env_ok db_ab 1 "2222222222" "Alice" 100).
  right. intros u [<-|[<-|[]]] [Ha Hn]; cbn in *; discriminate.
Defined.

(** ** Registration *)

Lemma findOne_by_email_some d email :
  (exists u, In u (Users d) /\ User.email u = email) ->
  exists v, findOne (by_email email) d = Some v.
Proof.
  intros (u & Hin & He).
  destruct (findOne (by_email email) d) as [v|] eqn:E; [eauto|].
  pose proof (proj1 (findOne_none_iff _ _) E u Hin) as H.
  unfold by_email in H. rewrite He, String.eqb_refl in H. discriminate.
Qed.

Lemma findOne_by_email_none d email :
  (forall u, In u (Users d) -> User.email u <> email) ->
  findOne (by_email email) d = None.
Proof.
  intros H. apply findOne_none_iff. intros u Hin. unfold by_email.
  apply String.eqb_neq. exact (H u Hin).
Qed.

(** C8: when an account with the e-mail exists, registration leaves the
    store as it was and does not succeed; the answer is the conflict
    (status 400) when the storage does not fail.  When no account has
    the e-mail and the storage does not fail, registration answers with
    a message only and appends one account: the name and e-mail given,
    the bcrypt hash of the password at cost 10 as credential (which is
    not the password, as long as bcrypt does not return its input), no
    account number, balance 0 and no embedded history. *)
Theorem register_once env d name email password :
  ((exists u, In u (Users d) /\ User.email u = email) ->
   let r := serve env (Signup name email password) d in
   snd r = d /\
   succeeded (fst r) = false /\
   (storage_ok env ->
    fst r = Json 400 (Message "Email already registered"))) /\
  ((forall u, In u (Users d) -> User.email u <> email) ->
   storage_ok env ->
   bcrypt_hash env password 10 <> password ->
   let r := serve env (Signup name email password) d in
   fst r = Json 201 (Message "User created successfully") /\
   exists u,
     snd r = mkDB (Users d ++ [u]) (Transactions d) /\
     User.name u = name /\
     User.email u = email /\
     User.password u = bcrypt_hash env password 10 /\
     User.password u <> password /\
     User.accountNumber u = None /\
     User.balance u = 0 /\
     User.transactions u = []).
Proof.
  split.
  - intros Hex r. subst r. unfold serve, handle.
    destruct (findOne_by_email_some d email Hex) as [v Hv].
    destruct (post_signup_run env d name email password)
      as [[Hd Hf]|(Hnone & _)]; [|congruence].
    repeat split; [exact Hd|exact Hf|].
    intros Hok. rewrite (post_signup_ok env d name email password Hok), Hv.
    reflexivity.
  - intros Hnew Hok Hhash r. subst r. unfold serve, handle.
    rewrite (post_signup_ok env d name email password Hok).
    rewrite (findOne_by_email_none d email Hnew).
    split; [reflexivity|].
    exists (new_account env name email password).
    cbn. repeat split; try reflexivity. exact Hhash.
Qed.

Lemma register_once_witness :
  snd (serve env_ok (Signup "Eve" "alice@bank.test" "pw") db_ab) = db_ab /\
  length (Users (snd (serve env_ok (Signup "Carol" "carol@bank.test" "pw")
                        db_ab))) = 3%nat.
Proof.
  split.
  - apply (register_once env_ok db_ab "Eve" "alice@bank.test" "pw").
    exists alice. split; [left; reflexivity|reflexivity].
  - destruct (proj2 (register_once env_ok db_ab "Carol" "carol@bank.test" "pw"))
      as (_ & u & Hu & _).
    + intros u [<-|[<-|[]]]; cbn; discriminate.
    + exact storage_ok_env_ok.
    + cbn. discriminate.
    + rewrite Hu. reflexivity.
Defined.

(** ** Account numbers *)

Lemma drawn_number_range env :
  (0 <= Math_random env)%Q -> (Math_random env < 1)%Q ->
  1000000000 <= drawn_number env <= 9999999999.
Proof.
  intros H0 H1. unfold drawn_number, Math_floor.
  set (x := (Math_random env * inject_Z 9000000000)%Q).
  assert (Hx0 : (0 <= x)%Q).
  { apply Qmult_le_0_compat; [exact H0|]. discriminate. }
  assert (Hx1 : (x < inject_Z 9000000000)%Q).
  { rewrite <- (Qmult_1_l (inject_Z 9000000000)). unfold x.
    apply Qmult_lt_compat_r; [reflexivity|exact H1]. }
  assert (Hlo : 0 <= Qfloor x).
  { change 0 with (Qfloor 0). apply Qfloor_resp_le. exact Hx0. }
  assert (Hhi : Qfloor x < 9000000000).
  { rewrite Zlt_Qlt. apply (Qle_lt_trans _ x); [apply Qfloor_le|exact Hx1]. }
  lia.
Qed.

Lemma digits_length k :
  forall fuel n acc,
    (k <= fuel)%nat ->
    10 ^ Z.of_nat k <= n < 10 ^ Z.of_nat (S k) ->
    String.length (digits fuel n acc) = (S k + String.length acc)%nat.
Proof.
  induction k as [|k IH]; intros fuel n acc Hfuel Hn.
  - change (10 ^ Z.of_nat 1) with 10 in Hn.
    assert (Hlt : (n <? 10) = true) by (apply Z.ltb_lt; lia).
    destruct fuel; cbn; [reflexivity|]. rewrite Hlt. reflexivity.
  - destruct fuel as [|fuel]; [lia|].
    rewrite !Nat2Z.inj_succ, !Z.pow_succ_r in Hn by lia.
    rewrite Nat2Z.inj_succ, Z.pow_succ_r in IH by lia.
    assert (Hpos : 0 < 10 ^ Z.of_nat k) by (apply Z.pow_pos_nonneg; lia).
    assert (Hge : (n <? 10) = false) by (apply Z.ltb_ge; lia).
    cbn [digits]. rewrite Hge. rewrite IH.
    + cbn. lia.
    + lia.
    + split.
      * apply Z.div_le_lower_bound; lia.
      * apply Z.div_lt_upper_bound; lia.
Qed.

Lemma digit_char_is_digit m : 0 <= m < 10 -> is_digit (digit_char m) = true.
Proof.
  intros H.
  assert (E : m = 0 \/ m = 1 \/ m = 2 \/ m = 3 \/ m = 4 \/ m = 5 \/ m = 6
              \/ m = 7 \/ m = 8 \/ m = 9) by lia.
  repeat (destruct E as [->|E]; [reflexivity|]). subst. reflexivity.
Qed.

Lemma digits_all_digits fuel :
  forall n acc, 0 <= n -> all_digits acc = true ->
    all_digits (digits fuel n acc) = true.
Proof.
  assert (Hstep : forall n acc, 0 <= n -> all_digits acc = true ->
            all_digits (String (digit_char (n mod 10)) acc) = true).
  { intros n acc Hn Hacc. cbn [all_digits].
    rewrite digit_char_is_digit by (apply Z.mod_pos_bound; lia).
    exact Hacc. }
  induction fuel as [|fuel IH]; intros n acc Hn Hacc.
  - apply Hstep; assumption.
  - cbn [digits]. destruct (n <? 10).
    + apply Hstep; assumption.
    + apply IH; [apply Z.div_pos; lia|apply Hstep; assumption].
Qed.

Lemma digit_value_digit_char m : 0 <= m < 10 -> digit_value (digit_char m) = m.
Proof.
  intros H.
  assert (E : m = 0 \/ m = 1 \/ m = 2 \/ m = 3 \/ m = 4 \/ m = 5 \/ m = 6
              \/ m = 7 \/ m = 8 \/ m = 9) by lia.
  repeat (destruct E as [->|E]; [reflexivity|]). subst. reflexivity.
Qed.

Lemma decimal_digits fuel :
  forall n acc,
    0 <= n < 10 ^ Z.of_nat (S fuel) ->
    decimal_value (digits fuel n acc)
    = n * snd (decimal acc) + decimal_value acc.
Proof.
  assert (Hstep : forall n acc, 0 <= n ->
            decimal (String (digit_char (n mod 10)) acc)
            = (n mod 10 * snd (decimal acc) + fst (decimal acc),
               10 * snd (decimal acc))).
  { intros n acc Hn. cbn [decimal]. destruct (decimal acc) as [v p].
    rewrite digit_value_digit_char by (apply Z.mod_pos_bound; lia).
    reflexivity. }
  unfold decimal_value.
  induction fuel as [|fuel IH]; intros n acc Hn.
  - change (10 ^ Z.of_nat 1) with 10 in Hn. cbn [digits].
    rewrite Hstep by lia. cbn [fst]. rewrite Z.mod_small by lia. reflexivity.
  - cbn [digits]. destruct (n <? 10) eqn:E.
    + apply Z.ltb_lt in E. rewrite Hstep by lia. cbn [fst].
      rewrite Z.mod_small by lia. reflexivity.
    + rewrite Nat2Z.inj_succ, Z.pow_succ_r in Hn by lia.
      rewrite IH by (split; [apply Z.div_pos; lia
                            |apply Z.div_lt_upper_bound; lia]).
      rewrite Hstep by lia. cbn [fst snd].
      pose proof (Z.div_mod n 10 ltac:(lia)) as Hdm.
      set (q := n / 10) in *. set (m := n mod 10) in *.
      set (p := snd (decimal acc)). set (v := fst (decimal acc)).
      replace (n * p) with ((10 * q + m) * p) by (rewrite <- Hdm; reflexivity).
      ring.
Qed.

Lemma ten_digits n :
  1000000000 <= n <= 9999999999 ->
  String.length (Number_toString n) = 10%nat /\
  all_digits (Number_toString n) = true /\
  decimal_value (Number_toString n) = n.
Proof.
  intros Hn. unfold Number_toString.
  assert (E : (n <? 0) = false) by (apply Z.ltb_ge; lia). rewrite E.
  split; [|split].
  - apply (digits_length 9); [lia|].
    change (10 ^ Z.of_nat 9) with 1000000000.
    change (10 ^ Z.of_nat 10) with 10000000000. lia.
  - apply digits_all_digits; [lia|reflexivity].
  - rewrite decimal_digits.
    + cbn. lia.
    + change (10 ^ Z.of_nat 22) with 10000000000000000000000. lia.
Qed.

(** C9: for an existing account, when the storage does not fail and
    [Math.random()] is in [0,1), the number drawn lies between
    1,000,000,000 and 9,999,999,999; its decimal form, ten digits that
    denote the number, is stored as the account number of that account and returned; every
    other field of the account, every other account and every record
    stay as they were. *)
Theorem account_number_assigned env d userId u :
  storage_ok env ->
  (0 <= Math_random env)%Q -> (Math_random env < 1)%Q ->
  findById userId d = Some u ->
  let n := drawn_number env in
  let a := Number_toString n in
  let r := serve env (GenerateAccount userId) d in
  1000000000 <= n <= 9999999999 /\
  String.length a = 10%nat /\
  all_digits a = true /\
  decimal_value a = n /\
  fst r = Json 200 (AccountNumber (Some a)) /\
  (exists u',
     findById userId (snd r) = Some u' /\
     User.accountNumber u' = Some a /\
     User._id u' = User._id u /\
     User.name u' = User.name u /\
     User.email u' = User.email u /\
     User.password u' = User.password u /\
     User.balance u' = User.balance u /\
     User.transactions u' = User.transactions u) /\
  (forall id, id <> userId -> findById id (snd r) = findById id d) /\
  Transactions (snd r) = Transactions d.
Proof.
  intros Hok H0 H1 Hu n a r. subst r.
  pose proof (drawn_number_range env H0 H1) as Hn.
  destruct (ten_digits _ Hn) as (Hlen & Hdig & Hval).
  unfold serve, handle.
  rewrite (post_generate_account_ok env d userId Hok), Hu.
  cbv zeta. fold n. fold a. cbn [fst snd Transactions].
  repeat (split; [assumption || reflexivity|]).
  split; [|split; [|reflexivity]].
  - exists (User.set_accountNumber u a). split; [|repeat split; reflexivity].
    unfold findById, set_accountNumber_of. cbn [Users].
    rewrite find_updateOne_same by reflexivity.
    unfold findById in Hu. rewrite Hu. reflexivity.
  - intros id Hne. unfold findById, set_accountNumber_of. cbn [Users].
    apply find_updateOne_other; [reflexivity|exact Hne].
Qed.

Lemma account_number_assigned_witness :
  fst (serve env_ok (GenerateAccount 2) db_ab)
  = Json 200 (AccountNumber (Some "5500000000")).
Proof.
  destruct (account_number_assigned env_ok db_ab 2 bob storage_ok_env_ok)
    as (_ & _ & _ & _ & H & _).
  - cbn. discriminate.
  - reflexivity.
  - reflexivity.
  - exact H.
Defined.

(** ** Listing the records of an account *)

Lemma insert_desc_perm t l : Permutation (t :: l) (insert_desc t l).
Proof.
  induction l as [|h r IH]; cbn; [reflexivity|].
  destruct (Transaction.date h <? Transaction.date t); [reflexivity|].
  rewrite perm_swap. apply perm_skip. exact IH.
Qed.

Lemma sort_date_desc_perm l : Permutation l (sort_date_desc l).
Proof.
  induction l as [|t r IH]; cbn; [constructor|].
  rewrite <- insert_desc_perm. apply perm_skip. exact IH.
Qed.

Lemma insert_desc_sorted t l :
  StronglySorted date_ge l -> StronglySorted date_ge (insert_desc t l).
Proof.
  induction 1 as [|h r Hr IH Hh]; cbn.
  - constructor; constructor.
  - destruct (Transaction.date h <? Transaction.date t) eqn:E.
    + apply Z.ltb_lt in E. constructor.
      * constructor; assumption.
      * constructor; [unfold date_ge; lia|].
        rewrite Forall_forall in *. intros x Hx. specialize (Hh x Hx).
        unfold date_ge in *. lia.
    + apply Z.ltb_ge in E. constructor; [exact IH|].
      apply (Permutation_Forall (insert_desc_perm t r)).
      constructor; [exact E|exact Hh].
Qed.

Lemma sort_date_desc_sorted l : StronglySorted date_ge (sort_date_desc l).
Proof.
  induction l as [|t r IH]; cbn; [constructor|].
  apply insert_desc_sorted. exact IH.
Qed.

(** C10: listing never changes the store; when the storage does not
    fail the answer is a list that holds exactly the records whose owner
    is the account (each as many times as it is stored), ordered so that
    no record is dated later than one that precedes it. *)
Theorem list_transactions_sorted env d userId :
  storage_ok env ->
  let r := serve env (GetTransactions userId) d in
  snd r = d /\
  exists l,
    fst r = Json 200 (TransactionList l) /\
    Permutation l (filter (owned_by userId) (Transactions d)) /\
    (forall t, In t l <->
               In t (Transactions d) /\ Transaction.userId t = userId) /\
    StronglySorted date_ge l.
Proof.
  intros Hok r. subst r. unfold serve, handle.
  split; [apply get_transactions_run|].
  rewrite (get_transactions_ok env d userId Hok).
  eexists. split; [reflexivity|].
  pose proof (sort_date_desc_perm (filter (owned_by userId) (Transactions d)))
    as Hp.
  split; [symmetry; exact Hp|]. split; [|apply sort_date_desc_sorted].
  intros t. split.
  - intros Hin. apply (Permutation_in _ (Permutation_sym Hp)) in Hin.
    apply filter_In in Hin. destruct Hin as [Hin Ho].
    split; [exact Hin|]. apply Nat.eqb_eq. exact Ho.
  - intros [Hin Hid]. apply (Permutation_in _ Hp). apply filter_In.
    split; [exact Hin|]. apply Nat.eqb_eq. exact Hid.
Qed.

Lemma list_transactions_sorted_witness :
  fst (serve env_ok (GetTransactions 1) db_history)
  = Json 200 (TransactionList
                [record 13 1 "deposit" 50 150 1700000000400;
                 record 10 1 "deposit" 200 200 1700000000300;
                 record 12 1 "withdraw" 100 100 1700000000100]) /\
  snd (serve env_ok (GetTransactions 1) db_history) = db_history.
Proof.
  destruct (list_transactions_sorted env_ok db_history 1 storage_ok_env_ok)
    as (Hd & l & Hl & _).
  split; [|exact Hd]. reflexivity.
Defined.

(** ** The scenario of the specification

    Alice (100) deposits 50 and holds 150 with one deposit record of
    balance 150; she then withdraws 200, which fails and changes
    nothing; she then transfers 100 to Bob (0): Alice holds 50, Bob 100,
    and the two records carry those balances. *)
Example scenario :
  let d0 := mkDB [User.set_balance alice 100; bob] [] in
  let d1 := snd (serve env_ok (PostTransaction 1 "deposit" 50) d0) in
  let d2 := snd (serve env_ok (PostTransaction 1 "withdraw" 200) d1) in
  let d3 := snd (serve env_ok (Transfer 1 "2222222222" 100 "Bob") d2) in
  map User.balance (Users d1) = [150; 0] /\
  map (fun t => (Transaction.type t, Transaction.balance t)) (Transactions d1)
    = [("deposit", 150)] /\
  d2 = d1 /\
  map User.balance (Users d3) = [50; 100] /\
  map (fun t => (Transaction.userId t, Transaction.type t,
                 Transaction.balance t)) (Transactions d3)
    = [(1%nat, "deposit", 150); (1%nat, "transfer_sent", 50);
       (2%nat, "transfer_received", 100)].
Proof. cbv zeta. repeat split; reflexivity. Qed.

(** * Further properties of the handlers *)

(** ** Signing in *)

Lemma post_signin_ok env d email password :
  storage_ok env ->
  run (post_signin email password) env d =
  (match findOne (by_email email) d with
   | None => Json 401 (Message "Invalid credentials")
   | Some user =>
       if bcrypt_compare env password (User.password user)
       then Json 200 (UserObject (delete_password user))
       else Json 401 (Message "Invalid credentials")
   end, d).
Proof.
  intros Hok. run_handler. rewrite Hok. cbn.
  destruct (findOne (by_email email) d) as [u|]; cbn; [|reflexivity].
  destruct (bcrypt_compare env password (User.password u)); reflexivity.
Qed.

(** X1: when the storage does not fail, a sign-in with an e-mail that no
    account has and a sign-in with a password that bcrypt rejects get
    the same answer, 401 "Invalid credentials", and the store is left as
    it was. *)
Theorem signin_rejected env d email password :
  storage_ok env ->
  (forall u, findOne (by_email email) d = Some u ->
             bcrypt_compare env password (User.password u) = false) ->
  serve env (Signin email password) d
  = (Json 401 (Message "Invalid credentials"), d).
Proof.
  intros Hok Hrej. unfold serve, handle.
  rewrite (post_signin_ok env d email password Hok).
  destruct (findOne (by_email email) d) as [u|]; [|reflexivity].
  rewrite (Hrej u eq_refl). reflexivity.
Qed.

Lemma signin_rejected_witness :
  serve env_ok (Signin "alice@bank.test" "guess") db_ab
  = (Json 401 (Message "Invalid credentials"), db_ab) /\
  serve env_ok (Signin "nobody@bank.test" "guess") db_ab
  = (Json 401 (Message "Invalid credentials"), db_ab).
Proof.
  split.
  - apply (signin_rejected env_ok db_ab "alice@bank.test" "guess"
             storage_ok_env_ok).
    intros u [= <-]. reflexivity.
  - apply (signin_rejected env_ok db_ab "nobody@bank.test" "guess"
             storage_ok_env_ok).
    intros u [=].
Defined.

(** X2: a sign-in answers 200 only for an account stored under the
    e-mail whose hash bcrypt accepts; the body is then that account
    with every field but [password]. *)
Theorem signin_accepted_only_with_hash env d email password status body :
  fst (serve env (Signin email password) d) = Json status body ->
  status = 200 ->
  exists u,
    findOne (by_email email) d = Some u /\
    bcrypt_compare env password (User.password u) = true /\
    body = UserObject (mkUserResponse (User._id u) (User.name u)
                         (User.email u) (User.accountNumber u)
                         (User.balance u) (User.transactions u)).
Proof.
  unfold serve, handle. run_handler.
  split_fault; [intros [= <- _] [=]|].
  destruct (findOne (by_email email) d) as [u|]; cbn;
    [|intros [= <- _] [=]].
  destruct (bcrypt_compare env password (User.password u)) eqn:E; cbn.
  - intros [= _ <-] _. exists u. auto.
  - intros [= <- _] [=].
Qed.

Lemma signin_accepted_only_with_hash_witness :
  exists u,
    findOne (by_email "alice@bank.test") db_ab = Some u /\
    bcrypt_compare env_ok "alice-secret" (User.password u) = true /\
    UserObject (delete_password alice)
    = UserObject (mkUserResponse (User._id u) (User.name u) (User.email u)
                    (User.accountNumber u) (User.balance u)
                    (User.transactions u)).
Proof.
  apply (signin_accepted_only_with_hash env_ok db_ab "alice@bank.test"
           "alice-secret" 200 (UserObject (delete_password alice)));
    reflexivity.
Defined.

(** X3: registration followed by sign-in.  After a registration that
    found the e-mail free, a sign-in with that e-mail is decided by
    [bcrypt.compare] on the hash that the registration stored: when it
    accepts, the answer is the new account (no account number, balance
    0, no history) without its password; when it rejects, 401. *)
Theorem signup_then_signin env1 env2 d name email password password' :
  storage_ok env1 -> storage_ok env2 ->
  (forall u, In u (Users d) -> User.email u <> email) ->
  let d1 := snd (serve env1 (Signup name email password) d) in
  fst (serve env2 (Signin email password') d1)
  = if bcrypt_compare env2 password' (bcrypt_hash env1 password 10)
    then Json 200 (UserObject (mkUserResponse (new_ObjectId env1 2) name
                                 email None 0 []))
    else Json 401 (Message "Invalid credentials").
Proof.
  intros Hok1 Hok2 Hnew d1. subst d1. unfold serve, handle.
  rewrite (post_signup_ok env1 d name email password Hok1).
  pose proof (findOne_by_email_none d email Hnew) as Hnone. rewrite Hnone.
  cbn [snd]. rewrite (post_signin_ok env2 _ email password' Hok2). cbn [fst].
  unfold findOne in *. cbn [Users].
  rewrite (find_app_none _ _ _ Hnone). cbn.
  unfold by_email. cbn. rewrite String.eqb_refl. reflexivity.
Qed.

Lemma signup_then_signin_witness :
  fst (serve env_ok (Signin "dave@bank.test" "pw")
         (snd (serve env_ok (Signup "Dave" "dave@bank.test" "pw") db_ab)))
  = Json 200 (UserObject (mkUserResponse 102 "Dave" "dave@bank.test" None
                            0 [])).
Proof.
  apply (signup_then_signin env_ok env_ok db_ab "Dave" "dave@bank.test"
           "pw" "pw" storage_ok_env_ok storage_ok_env_ok).
  intros u [<-|[<-|[]]]; cbn; discriminate.
Defined.

(** ** Deposits and withdrawals: edges *)

(** X4: a deposit or withdrawal for an id that no account has leaves
    the store as it was and is answered with status 400; the message is
    "User not found" when the storage does not fail. *)
Theorem transaction_unknown_user env d userId type amount :
  findById userId d = None ->
  let r := serve env (PostTransaction userId type amount) d in
  snd r = d /\
  (exists msg, fst r = Json 400 (Message msg)) /\
  (storage_ok env -> fst r = Json 400 (Message "User not found")).
Proof.
  intros Hnone r. subst r. unfold serve, handle.
  destruct (post_transaction_run env d userId type amount)
    as [[Hd Hm]|(u & Hu & _)]; [|congruence].
  repeat split; auto.
  intros Hok. rewrite (post_transaction_ok env d userId type amount Hok), Hnone.
  reflexivity.
Qed.

Lemma transaction_unknown_user_witness :
  serve env_ok (PostTransaction 7 "deposit" 10) db_ab
  = (Json 400 (Message "User not found"), db_ab).
Proof.
  destruct (transaction_unknown_user env_ok db_ab 7 "deposit" 10 eq_refl)
    as (Hd & _ & Hm).
  rewrite (surjective_pairing (serve env_ok (PostTransaction 7 "deposit" 10)
                                 db_ab)).
  rewrite Hd, (Hm storage_ok_env_ok). reflexivity.
Defined.



Lemma set_balance_back u b :
  User.set_balance (User.set_balance u b) (User.balance u) = u.
Proof. destruct u. reflexivity. Qed.





(** X7: the answer to a successful deposit or withdrawal carries the
    whole account document, the stored password hash included (the
    sign-in handler deletes it, this one does not). *)
Theorem transaction_response_has_hash env d userId type amount status user tx :
  fst (serve env (PostTransaction userId type amount) d)
  = Json status (UserTransaction user tx) ->
  exists u,
    findById userId d = Some u /\
    User.password user = User.password u /\
    User._id user = userId /\
    In tx (Transactions (snd (serve env (PostTransaction userId type amount)
                                d))).
Proof.
  unfold serve, handle. intros Hr.
  destruct (post_transaction_run env d userId type amount)
    as [[_ [msg Hm]]|(u & Hu & _ & Hres & Hd)].
  - rewrite Hm in Hr. discriminate.
  - cbv zeta in Hres, Hd. rewrite Hres in Hr. injection Hr as _ <- <-.
    exists u. rewrite Hd. cbn. repeat split; auto.
    + exact (findById_id _ _ _ Hu).
    + apply in_or_app. right. left. reflexivity.
Qed.

Lemma transaction_response_has_hash_witness :
  exists u,
    findById 1 db_ab = Some u /\
    User.password (User.set_balance alice 160) = User.password u /\
    User._id (User.set_balance alice 160) = 1%nat /\
    In (transaction_record env_ok 1 "deposit" 10 160)
       (Transactions (snd (serve env_ok (PostTransaction 1 "deposit" 10)
                             db_ab))).
Proof.
  apply (transaction_response_has_hash env_ok db_ab 1 "deposit" 10 200
           (User.set_balance alice 160)
           (transaction_record env_ok 1 "deposit" 10 160)).
  reflexivity.
Defined.

(** ** Transfers: edges and conservation *)

(** X8: a transfer whose two parties resolve but whose amount exceeds
    the sender's balance leaves the store as it was and is answered
    with status 400; the message is "Insufficient balance" when the
    storage does not fail. *)
Theorem transfer_insufficient_funds env d senderId acc nm amount A B :
  findById senderId d = Some A ->
  findOne (by_account acc nm) d = Some B ->
  User.balance A < amount ->
  let r := serve env (Transfer senderId acc amount nm) d in
  snd r = d /\
  (exists msg, fst r = Json 400 (Message msg)) /\
  (storage_ok env -> fst r = Json 400 (Message "Insufficient balance")).
Proof.
  intros HA HB Hlt r. subst r. unfold serve, handle.
  destruct (post_transfer_run env d senderId acc amount nm)
    as [[Hd Hm]|(s & t & Hs & _ & Hle & _)].
  - repeat split; auto. intros Hok.
    rewrite (post_transfer_ok env d senderId acc amount nm Hok), HA, HB.
    apply Z.ltb_lt in Hlt. rewrite Hlt. reflexivity.
  - rewrite HA in Hs. injection Hs as <-. lia.
Qed.

Lemma transfer_insufficient_funds_witness :
  snd (serve env_ok (Transfer 1 "2222222222" 151 "Bob") db_ab) = db_ab.
Proof.
  apply (transfer_insufficient_funds env_ok db_ab 1 "2222222222" "Bob" 151
           alice bob eq_refl eq_refl).
  cbn. lia.
Defined.








(** ** What every request keeps *)

(** X12: a request that is not answered with a success status leaves
    both collections exactly as they were, whichever the route and
    whatever the storage does: an error after the session opened rolls
    every write back. *)
Theorem failed_request_changes_nothing env req d :
  succeeded (fst (serve env req d)) = false ->
  snd (serve env req d) = d.
Proof.
  destruct req as
    [name email password | email password | userId | userId type amount
    | senderId acc amount nm | userId]; unfold serve, handle; intros Hf.
  - destruct (post_signup_run env d name email password)
      as [[Hd _]|(_ & Hr & _)]; [exact Hd|].
    rewrite Hr in Hf. discriminate.
  - apply post_signin_run.
  - destruct (post_generate_account_run env d userId)
      as [[Hd _]|(u & _ & Hr & _)]; [exact Hd|].
    cbv zeta in Hr. rewrite Hr in Hf. discriminate.
  - destruct (post_transaction_run env d userId type amount)
      as [[Hd _]|(u & _ & _ & Hr & _)]; [exact Hd|].
    cbv zeta in Hr. rewrite Hr in Hf. discriminate.
  - destruct (post_transfer_run env d senderId acc amount nm)
      as [[Hd _]|(s & t & _ & _ & _ & Hr & _)]; [exact Hd|].
    cbv zeta in Hr. rewrite Hr in Hf. discriminate.
  - apply get_transactions_run.
Qed.

Lemma failed_request_changes_nothing_witness :
  snd (serve (env_fault_at 8 "commit failed")
         (Transfer 1 "2222222222" 100 "Bob") db_ab) = db_ab.
Proof. apply failed_request_changes_nothing. reflexivity. Defined.

(** X13: the number of records grows by one with a successful
    [/api/transaction], by two with a successful [/api/transfer], and
    not at all with any other request or any failure. *)
Theorem records_written_per_request env req d :
  let r := serve env req d in
  length (Transactions (snd r))
  = (length (Transactions d)
     + if succeeded (fst r)
       then match req with
            | PostTransaction _ _ _ => 1
            | Transfer _ _ _ _ => 2
            | _ => 0
            end
       else 0)%nat.
Proof.
  intros r. subst r. destruct req as
    [name email password | email password | userId | userId type amount
    | senderId acc amount nm | userId]; unfold serve, handle.
  - destruct (post_signup_run env d name email password)
      as [[-> ->]|(_ & -> & ->)]; cbn; lia.
  - rewrite post_signin_run. destruct (succeeded _); lia.
  - destruct (post_generate_account_run env d userId)
      as [[-> ->]|(u & _ & -> & ->)]; cbn; lia.
  - destruct (post_transaction_run env d userId type amount)
      as [[-> [msg ->]]|(u & _ & _ & -> & ->)]; cbn; [lia|].
    rewrite length_app. cbn. lia.
  - destruct (post_transfer_run env d senderId acc amount nm)
      as [[-> [msg ->]]|(s & t & _ & _ & _ & -> & ->)]; cbn; [lia|].
    rewrite length_app. cbn. lia.
  - rewrite get_transactions_run. destruct (succeeded _); lia.
Qed.

Lemma serve_appends_records env req d :
  exists new, Transactions (snd (serve env req d)) = Transactions d ++ new.
Proof.
  destruct req as
    [name email password | email password | userId | userId type amount
    | senderId acc amount nm | userId]; unfold serve, handle.
  - destruct (post_signup_run env d name email password)
      as [[-> _]|(_ & _ & ->)]; exists []; cbn; rewrite app_nil_r; reflexivity.
  - rewrite post_signin_run. exists []. rewrite app_nil_r. reflexivity.
  - destruct (post_generate_account_run env d userId)
      as [[-> _]|(u & _ & _ & ->)]; exists []; cbn; rewrite app_nil_r;
        reflexivity.
  - destruct (post_transaction_run env d userId type amount)
      as [[-> _]|(u & _ & _ & _ & ->)].
    + exists []. rewrite app_nil_r. reflexivity.
    + eexists. reflexivity.
  - destruct (post_transfer_run env d senderId acc amount nm)
      as [[-> _]|(s & t & _ & _ & _ & _ & ->)].
    + exists []. rewrite app_nil_r. reflexivity.
    + eexists. reflexivity.
  - rewrite get_transactions_run. exists []. rewrite app_nil_r. reflexivity.
Qed.

(** X14: the ledger is append-only.  After any sequence of requests the
    records that were stored are still there, unchanged and in the same
    order, at the front of the collection: no handler updates or deletes
    a record. *)
Theorem ledger_append_only reqs d :
  exists new, Transactions (serve_all reqs d) = Transactions d ++ new.
Proof.
  revert d. induction reqs as [|[env req] rest IH]; intros d; cbn.
  - exists []. rewrite app_nil_r. reflexivity.
  - destruct (serve_appends_records env req d) as [n1 H1].
    destruct (IH (snd (serve env req d))) as [n2 H2].
    exists (n1 ++ n2). rewrite H2, H1, app_assoc. reflexivity.
Qed.

Lemma same_identity_refl u : same_identity u u.
Proof. repeat split. Qed.

Lemma same_identity_trans u v w :
  same_identity u v -> same_identity v w -> same_identity u w.
Proof.
  unfold same_identity. intros (a & b & c & e & f) (a' & b' & c' & e' & f').
  repeat split; congruence.
Qed.

Lemma find_updateOne_identity f id id' l u :
  (forall v, same_identity v (f v)) ->
  find (fun v => Nat.eqb (User._id v) id) l = Some u ->
  exists u', find (fun v => Nat.eqb (User._id v) id) (updateOne id' f l)
             = Some u' /\ same_identity u u'.
Proof.
  intros Hf Hu. destruct (Nat.eq_dec id id') as [->|Hne].
  - rewrite find_updateOne_same by (intros v; apply (Hf v)).
    rewrite Hu. cbn. eauto.
  - rewrite find_updateOne_other by (auto; intros v; apply (Hf v)).
    exists u. split; [exact Hu|apply same_identity_refl].
Qed.

Lemma serve_keeps_accounts env req d id u :
  findById id d = Some u ->
  exists u', findById id (snd (serve env req d)) = Some u' /\
             same_identity u u'.
Proof.
  intros Hu.
  assert (Hsame : exists u', findById id d = Some u' /\ same_identity u u')
    by (exists u; split; [exact Hu|apply same_identity_refl]).
  assert (Hbal : forall b v, same_identity v (User.set_balance v b))
    by (intros; repeat split).
  destruct req as
    [name email password | email password | userId | userId type amount
    | senderId acc amount nm | userId]; unfold serve, handle.
  - destruct (post_signup_run env d name email password)
      as [[-> _]|(_ & _ & ->)]; [exact Hsame|].
    exists u. split; [|apply same_identity_refl].
    unfold findById in *. cbn. apply find_app_some. exact Hu.
  - rewrite post_signin_run. exact Hsame.
  - destruct (post_generate_account_run env d userId)
      as [[-> _]|(v & _ & _ & ->)]; [exact Hsame|].
    unfold findById in *. cbn. apply find_updateOne_identity; [|exact Hu].
    intros w. repeat split.
  - destruct (post_transaction_run env d userId type amount)
      as [[-> _]|(v & _ & _ & _ & ->)]; [exact Hsame|].
    unfold findById in *. cbn. apply find_updateOne_identity; [|exact Hu].
    apply Hbal.
  - destruct (post_transfer_run env d senderId acc amount nm)
      as [[-> _]|(s & t & _ & _ & _ & _ & ->)]; [exact Hsame|].
    unfold findById in *. cbn. unfold set_balance_of.
    destruct (find_updateOne_identity
                (fun w => User.set_balance w (User.balance s - amount))
                id senderId (Users d) u (Hbal _) Hu) as (u1 & H1 & S1).
    destruct (find_updateOne_identity
                (fun w => User.set_balance w (User.balance t + amount))
                id (User._id t) _ u1 (Hbal _) H1) as (u2 & H2 & S2).
    exists u2. split; [exact H2|exact (same_identity_trans _ _ _ S1 S2)].
  - rewrite get_transactions_run. exact Hsame.
Qed.

(** X15: accounts are never deleted and their identity never changes.
    After any sequence of requests an account that was stored is still
    found under its id, with the same name, e-mail, password hash and
    embedded list; only its balance and account number may differ. *)
Theorem accounts_persist reqs d id u :
  findById id d = Some u ->
  exists u', findById id (serve_all reqs d) = Some u' /\ same_identity u u'.
Proof.
  revert d u. induction reqs as [|[env req] rest IH]; intros d u Hu; cbn.
  - exists u. split; [exact Hu|apply same_identity_refl].
  - destruct (serve_keeps_accounts env req d id u Hu) as (u1 & H1 & S1).
    destruct (IH _ u1 H1) as (u2 & H2 & S2).
    exists u2. split; [exact H2|exact (same_identity_trans _ _ _ S1 S2)].
Qed.

Lemma accounts_persist_witness :
  exists u',
    findById 1 (serve_all [(env_ok, Transfer 1 "2222222222" 100 "Bob");
                           (env_ok, GenerateAccount 1)] db_ab) = Some u' /\
    same_identity alice u'.
Proof. apply accounts_persist. reflexivity. Defined.

Lemma map_updateOne {A} (g : User.t -> A) f id l :
  (forall u, g (f u) = g u) ->
  map g (updateOne id f l) = map g l.
Proof.
  intros Hg. induction l as [|u r IH]; cbn; [reflexivity|].
  destruct (Nat.eqb (User._id u) id); cbn; [rewrite Hg|rewrite IH];
    reflexivity.
Qed.

Lemma NoDup_snoc {A} (l : list A) a : NoDup l -> ~ In a l -> NoDup (l ++ [a]).
Proof.
  intros Hl Ha. induction Hl as [|b r Hb Hr IH]; cbn.
  - constructor; [intros []|constructor].
  - constructor.
    + rewrite in_app_iff. intros [H|[H|[]]]; [exact (Hb H)|].
      apply Ha. left. symmetry. exact H.
    + apply IH. intros H. apply Ha. right. exact H.
Qed.

(** How a request changes the list of accounts: it appends one account
    (a successful registration), or it rewrites the balance or the
    account number of stored ones. *)
Lemma serve_users_shape env req d :
  (exists name email password,
     req = Signup name email password /\
     findOne (by_email email) d = None /\
     Users (snd (serve env req d))
     = Users d ++ [new_account env name email password])
  \/ (map User._id (Users (snd (serve env req d))) = map User._id (Users d) /\
      map User.email (Users (snd (serve env req d)))
      = map User.email (Users d) /\
      map User.transactions (Users (snd (serve env req d)))
      = map User.transactions (Users d)).
Proof.
  assert (Hsame : forall us, map User._id us = map User._id us /\
                             map User.email us = map User.email us /\
                             map User.transactions us
                             = map User.transactions us) by auto.
  destruct req as
    [name email password | email password | userId | userId type amount
    | senderId acc amount nm | userId]; unfold serve, handle.
  - destruct (post_signup_run env d name email password)
      as [[-> _]|(Hn & _ & ->)]; [right; apply Hsame|].
    left. exists name, email, password. auto.
  - rewrite post_signin_run. right. apply Hsame.
  - destruct (post_generate_account_run env d userId)
      as [[-> _]|(u & _ & _ & ->)]; right; [apply Hsame|].
    cbn. unfold set_accountNumber_of.
    rewrite !map_updateOne by reflexivity. auto.
  - destruct (post_transaction_run env d userId type amount)
      as [[-> _]|(u & _ & _ & _ & ->)]; right; [apply Hsame|].
    cbn. unfold set_balance_of. rewrite !map_updateOne by reflexivity. auto.
  - destruct (post_transfer_run env d senderId acc amount nm)
      as [[-> _]|(s & t & _ & _ & _ & _ & ->)]; right; [apply Hsame|].
    cbn. unfold set_balance_of. rewrite !map_updateOne by reflexivity. auto.
  - rewrite get_transactions_run. right. apply Hsame.
Qed.

Lemma findOne_by_email_not_In d email :
  findOne (by_email email) d = None -> ~ In email (map User.email (Users d)).
Proof.
  intros Hn Hin. apply in_map_iff in Hin. destruct Hin as (u & He & Hu).
  pose proof (proj1 (findOne_none_iff _ _) Hn u Hu) as H.
  unfold by_email in H. rewrite He, String.eqb_refl in H. discriminate.
Qed.

Lemma serve_keeps_emails_unique env req d :
  emails_unique d -> emails_unique (snd (serve env req d)).
Proof.
  unfold emails_unique. intros Hd.
  destruct (serve_users_shape env req d)
    as [(name & email & password & _ & Hn & ->)|(_ & -> & _)]; [|exact Hd].
  rewrite map_app. cbn. apply NoDup_snoc; [exact Hd|].
  apply findOne_by_email_not_In. exact Hn.
Qed.

(** X16: e-mail addresses stay unique.  If no two accounts share an
    e-mail, no sequence of requests makes two accounts share one: the
    registration handler looks the address up before it inserts, and no
    handler changes an address. *)
Theorem emails_stay_unique reqs d :
  emails_unique d -> emails_unique (serve_all reqs d).
Proof.
  revert d. induction reqs as [|[env req] rest IH]; intros d Hd; cbn;
    [exact Hd|].
  apply IH. apply serve_keeps_emails_unique. exact Hd.
Qed.

Lemma emails_stay_unique_witness :
  emails_unique
    (serve_all [(env_ok, Signup "Dave" "dave@bank.test" "pw");
                (env_ok, Signup "Mallory" "dave@bank.test" "pw2");
                (env_ok, Signup "Eve" "alice@bank.test" "pw3")] db_ab).
Proof.
  apply emails_stay_unique. unfold emails_unique. cbn.
  repeat constructor; cbn; intuition discriminate.
Defined.

(** X17: the embedded [transactions] array of an account is dead
    structure: registration stores it empty and no handler writes to
    it, so if it is empty on every account it stays empty on every
    account after any sequence of requests, however many records the
    ledger collection receives. *)
Theorem embedded_history_stays_empty reqs d :
  no_embedded_history d -> no_embedded_history (serve_all reqs d).
Proof.
  revert d. induction reqs as [|[env req] rest IH]; intros d Hd; cbn;
    [exact Hd|].
  apply IH. unfold no_embedded_history in *.
  destruct (serve_users_shape env req d)
    as [(name & email & password & _ & _ & ->)|(_ & _ & Ht)].
  - apply Forall_app. split; [exact Hd|]. constructor; [reflexivity|constructor].
  - rewrite Forall_forall in *. intros u Hu.
    assert (Hin : In (User.transactions u)
                     (map User.transactions (Users d)))
      by (rewrite <- Ht; apply in_map; exact Hu).
    apply in_map_iff in Hin. destruct Hin as (v & <- & Hv). exact (Hd v Hv).
Qed.

Lemma embedded_history_stays_empty_witness :
  no_embedded_history
    (serve_all [(env_ok, PostTransaction 1 "deposit" 50);
                (env_ok, Transfer 1 "2222222222" 100 "Bob")] db_ab).
Proof.
  apply embedded_history_stays_empty. unfold no_embedded_history. cbn.
  repeat constructor.
Defined.

Lemma findById_none_not_In id d :
  findById id d = None -> ~ In id (map User._id (Users d)).
Proof.
  unfold findById. intros Hn Hin. apply in_map_iff in Hin.
  destruct Hin as (u & He & Hu).
  pose proof (find_none _ _ Hn u Hu) as H. cbn in H.
  rewrite He, Nat.eqb_refl in H. discriminate.
Qed.

(** X18: [_id] stays a primary key.  If the ids of the accounts are
    pairwise distinct and the [ObjectId] that the driver gives to a
    newly registered account is the id of no stored account, the ids
    are pairwise distinct after the request. *)
Theorem ids_stay_unique env req d :
  unique_ids d ->
  (forall id, created_id env req = Some id -> findById id d = None) ->
  unique_ids (snd (serve env req d)).
Proof.
  unfold unique_ids. intros Hd Hfresh.
  destruct (serve_users_shape env req d)
    as [(name & email & password & -> & _ & ->)|(-> & _)]; [|exact Hd].
  rewrite map_app. cbn. apply NoDup_snoc; [exact Hd|].
  apply findById_none_not_In. apply Hfresh. reflexivity.
Qed.

Lemma ids_stay_unique_witness :
  unique_ids (snd (serve env_ok (Signup "Dave" "dave@bank.test" "pw") db_ab)).
Proof.
  apply ids_stay_unique.
  - unfold unique_ids. cbn. repeat constructor; cbn; intuition discriminate.
  - intros id [= <-]. reflexivity.
Defined.

(** X19: referential integrity of the ledger.  After any sequence of
    requests served from the empty store, the owner of every record is
    the id of a stored account. *)
Theorem every_record_has_its_account reqs :
  records_owned (serve_all reqs empty_db).
Proof.
  apply (ledger_invariant_serve_all reqs empty_db ledger_invariant_empty).
Qed.

(** X20: no balance moves without a record.  If a request leaves an
    account with a balance other than the one it had, the request has
    appended to the ledger a record owned by that account whose balance
    field is the new balance. *)
Theorem balance_change_has_record env req d id u u' :
  findById id d = Some u ->
  findById id (snd (serve env req d)) = Some u' ->
  User.balance u' <> User.balance u ->
  exists new t,
    Transactions (snd (serve env req d)) = Transactions d ++ new /\
    In t new /\
    Transaction.userId t = id /\
    Transaction.balance t = User.balance u'.
Proof.
  intros Hu Hu' Hne.
  assert (Hsame : snd (serve env req d) = d -> False).
  { intros E. rewrite E in Hu'. congruence. }
  destruct req as
    [name email password | email password | userId | userId type amount
    | senderId acc amount nm | userId]; unfold serve, handle in *.
  - destruct (post_signup_run env d name email password)
      as [[E _]|(_ & _ & E)]; [destruct (Hsame E)|].
    rewrite E in Hu'. unfold findById in *. cbn in Hu'.
    rewrite (find_app_some _ _ _ _ Hu) in Hu'. congruence.
  - destruct (Hsame (post_signin_run env d email password)).
  - destruct (post_generate_account_run env d userId)
      as [[E _]|(v & _ & _ & E)]; [destruct (Hsame E)|].
    rewrite E in Hu'. unfold findById, set_accountNumber_of in *. cbn in Hu'.
    destruct (Nat.eq_dec id userId) as [->|Hd].
    + rewrite find_updateOne_same, Hu in Hu' by reflexivity.
      cbn in Hu'. injection Hu' as <-. destruct (Hne eq_refl).
    + rewrite find_updateOne_other in Hu' by (auto || reflexivity).
      congruence.
  - destruct (post_transaction_run env d userId type amount)
      as [[E _]|(v & Hv & _ & _ & E)]; [destruct (Hsame E)|].
    cbv zeta in E. rewrite E in *. unfold findById, set_balance_of in *.
    cbn in Hu'.
    destruct (Nat.eq_dec id userId) as [->|Hd].
    + rewrite find_updateOne_same, Hu in Hu' by reflexivity.
      cbn in Hu'. injection Hu' as <-.
      rewrite Hv in Hu. injection Hu as ->.
      eexists. eexists. split; [reflexivity|].
      split; [left; reflexivity|]. split; reflexivity.
    + rewrite find_updateOne_other in Hu' by (auto || reflexivity).
      congruence.
  - destruct (post_transfer_run env d senderId acc amount nm)
      as [[E _]|(s & t & Hs & Ht & _ & _ & E)]; [destruct (Hsame E)|].
    cbv zeta in E. rewrite E in *. unfold findById, set_balance_of in *.
    cbn in Hu'.
    destruct (Nat.eq_dec id (User._id t)) as [->|Hd].
    + rewrite find_updateOne_same in Hu' by reflexivity.
      destruct (find _ (updateOne senderId _ _)); [|discriminate].
      cbn in Hu'. injection Hu' as <-.
      eexists. exists (received_record env s t amount).
      split; [reflexivity|]. split; [right; left; reflexivity|].
      split; reflexivity.
    + rewrite find_updateOne_other in Hu' by (auto || reflexivity).
      destruct (Nat.eq_dec id senderId) as [->|Hd'].
      * rewrite find_updateOne_same, Hu in Hu' by reflexivity.
        cbn in Hu'. injection Hu' as <-.
        rewrite Hs in Hu. injection Hu as ->.
        eexists. exists (sent_record env u t amount).
        split; [reflexivity|]. split; [left; reflexivity|].
        split; [exact (findById_id _ _ _ Hs)|reflexivity].
      * rewrite find_updateOne_other in Hu' by (auto || reflexivity).
        congruence.
  - destruct (Hsame (get_transactions_run env d userId)).
Qed.

Lemma balance_change_has_record_witness :
  exists new t,
    Transactions (snd (serve env_ok (Transfer 1 "2222222222" 100 "Bob") db_ab))
    = Transactions db_ab ++ new /\
    In t new /\
    Transaction.userId t = 2%nat /\
    Transaction.balance t = 100.
Proof.
  apply (balance_change_has_record env_ok (Transfer 1 "2222222222" 100 "Bob")
           db_ab 2 bob (User.set_balance bob 100)).
  - reflexivity.
  - reflexivity.
  - cbn. discriminate.
Defined.

(** ** Account numbers: edges and composition *)

(** X21: assigning an account number to an id that no account has is
    answered with status 500 and the message "Error generating account
    number", and creates nothing: the store is left as it was. *)
Theorem generate_account_unknown_user env d userId :
  findById userId d = None ->
  let r := serve env (GenerateAccount userId) d in
  snd r = d /\
  exists err,
    fst r = Json 500 (MessageError "Error generating account number" err).
Proof.
  intros Hn r. subst r. unfold serve, handle. run_handler.
  split_fault; [split; eauto|].
  rewrite find_updateOne_same by reflexivity.
  unfold findById in Hn. rewrite Hn. cbn.
  rewrite updateOne_absent by exact Hn. destruct d; split; eauto.
Qed.

Lemma generate_account_unknown_user_witness :
  snd (serve env_ok (GenerateAccount 9) db_ab) = db_ab.
Proof.
  apply (generate_account_unknown_user env_ok db_ab 9). reflexivity.
Defined.

Lemma drawn_number_Qeq env1 env2 :
  (Math_random env1 == Math_random env2)%Q ->
  drawn_number env1 = drawn_number env2.
Proof.
  intros H. unfold drawn_number, Math_floor. f_equal.
  apply Qfloor_comp. rewrite H. reflexivity.
Qed.

(** X22: account numbers are not checked for uniqueness.  Two distinct
    accounts whose assignments draw the same random value end with the
    same account number. *)
Theorem account_numbers_can_collide env1 env2 d id1 id2 u1 u2 :
  storage_ok env1 -> storage_ok env2 ->
  (Math_random env1 == Math_random env2)%Q ->
  id1 <> id2 ->
  findById id1 d = Some u1 ->
  findById id2 d = Some u2 ->
  let d1 := snd (serve env1 (GenerateAccount id1) d) in
  let d2 := snd (serve env2 (GenerateAccount id2) d1) in
  exists a v1 v2,
    findById id1 d2 = Some v1 /\ User.accountNumber v1 = Some a /\
    findById id2 d2 = Some v2 /\ User.accountNumber v2 = Some a.
Proof.
  intros Hok1 Hok2 Hr Hne H1 H2 d1 d2. subst d2 d1. unfold serve, handle.
  rewrite (post_generate_account_ok env1 d id1 Hok1), H1. cbv zeta.
  cbn [snd].
  rewrite (post_generate_account_ok env2 _ id2 Hok2). cbv zeta.
  rewrite <- (drawn_number_Qeq env1 env2 Hr).
  set (a := Number_toString (drawn_number env1)).
  assert (H2' : findById id2
                  (mkDB (set_accountNumber_of id1 a (Users d))
                        (Transactions d)) = Some u2).
  { unfold findById, set_accountNumber_of in *. cbn.
    rewrite find_updateOne_other by (auto || reflexivity). exact H2. }
  rewrite H2'. cbn [snd Users Transactions].
  exists a, (User.set_accountNumber u1 a), (User.set_accountNumber u2 a).
  unfold findById, set_accountNumber_of in *. cbn [Users] in *.
  repeat split.
  - rewrite find_updateOne_other by (auto || reflexivity).
    rewrite find_updateOne_same, H1 by reflexivity. reflexivity.
  - rewrite find_updateOne_same, H2' by reflexivity. reflexivity.
Qed.

Lemma account_numbers_can_collide_witness :
  exists a v1 v2,
    findById 1 (snd (serve env_ok (GenerateAccount 2)
                       (snd (serve env_ok (GenerateAccount 1) db_ab))))
    = Some v1 /\ User.accountNumber v1 = Some a /\
    findById 2 (snd (serve env_ok (GenerateAccount 2)
                       (snd (serve env_ok (GenerateAccount 1) db_ab))))
    = Some v2 /\ User.accountNumber v2 = Some a.
Proof.
  apply (account_numbers_can_collide env_ok env_ok db_ab 1 2 alice bob
           storage_ok_env_ok storage_ok_env_ok);
    [reflexivity|discriminate|reflexivity|reflexivity].
Defined.




(** ** Listing: edges and composition *)

(** X24: listing does not look the account up.  For an id that owns no
    record, known or not, the answer is 200 with the empty list when
    the storage does not fail. *)
Theorem list_without_records env d userId :
  storage_ok env ->
  (forall t, In t (Transactions d) -> Transaction.userId t <> userId) ->
  serve env (GetTransactions userId) d = (Json 200 (TransactionList []), d).
Proof.
  intros Hok Hnone. unfold serve, handle.
  rewrite (surjective_pairing (run (get_transactions userId) env d)).
  rewrite get_transactions_run, (get_transactions_ok env d userId Hok).
  replace (filter (owned_by userId) (Transactions d)) with (@nil Transaction.t);
    [reflexivity|].
  symmetry. induction (Transactions d) as [|t r IH]; cbn; [reflexivity|].
  assert (E : owned_by userId t = false).
  { apply Nat.eqb_neq. apply Hnone. left. reflexivity. }
  rewrite E. apply IH. intros t' Ht'. apply Hnone. right. exact Ht'.
Qed.

Lemma list_without_records_witness :
  serve env_ok (GetTransactions 42) db_history
  = (Json 200 (TransactionList []), db_history).
Proof.
  apply (list_without_records env_ok db_history 42 storage_ok_env_ok).
  intros t [<-|[<-|[<-|[<-|[]]]]]; cbn; discriminate.
Defined.

(** X25: the record that [/api/transaction] answers is stored: a later
    listing for the same id, when the storage does not fail, contains
    it. *)
Theorem answered_record_is_listed env1 env2 d userId type amount
    status user tx :
  fst (serve env1 (PostTransaction userId type amount) d)
  = Json status (UserTransaction user tx) ->
  storage_ok env2 ->
  exists l,
    fst (serve env2 (GetTransactions userId)
           (snd (serve env1 (PostTransaction userId type amount) d)))
    = Json 200 (TransactionList l) /\
    In tx l.
Proof.
  unfold serve, handle. intros Hr Hok.
  rewrite (get_transactions_ok env2 _ userId Hok).
  eexists. split; [reflexivity|].
  destruct (post_transaction_run env1 d userId type amount)
    as [[_ [msg Hm]]|(u & Hu & _ & Hres & Hd)].
  - rewrite Hm in Hr. discriminate.
  - cbv zeta in Hres, Hd. rewrite Hres in Hr. injection Hr as _ _ <-.
    rewrite Hd. cbn [Transactions].
    apply (Permutation_in _ (sort_date_desc_perm _)).
    apply filter_In. split.
    + apply in_or_app. right. left. reflexivity.
    + apply Nat.eqb_refl.
Qed.

Lemma answered_record_is_listed_witness :
  exists l,
    fst (serve env_ok (GetTransactions 1)
           (snd (serve env_ok (PostTransaction 1 "deposit" 10) db_history)))
    = Json 200 (TransactionList l) /\
    In (transaction_record env_ok 1 "deposit" 10 160) l.
Proof.
  apply (answered_record_is_listed env_ok env_ok db_history 1 "deposit" 10
           200 (User.set_balance alice 160)
           (transaction_record env_ok 1 "deposit" 10 160)).
  - reflexivity.
  - exact storage_ok_env_ok.
Defined.

(** ** Frame *)

Lemma find_app_other id l u :
  User._id u <> id ->
  find (fun v => Nat.eqb (User._id v) id) (l ++ [u])
  = find (fun v => Nat.eqb (User._id v) id) l.
Proof.
  intros Hne. induction l as [|v r IH]; cbn.
  - apply Nat.eqb_neq in Hne. rewrite Hne. reflexivity.
  - destruct (Nat.eqb (User._id v) id); [reflexivity|exact IH].
Qed.

(** X26: a request writes only to the accounts it addresses.  The
    document found under any id other than the one a request names
    (for a transfer: other than the sender's and the resolved
    recipient's; for a registration: other than the new one) is, after
    the request, exactly the document found before. *)
Theorem other_accounts_untouched env req d id :
  ~ may_write env req d id ->
  findById id (snd (serve env req d)) = findById id d.
Proof.
  intros Hno. destruct req as
    [name email password | email password | userId | userId type amount
    | senderId acc amount nm | userId]; unfold serve, handle; cbn in Hno.
  - destruct (post_signup_run env d name email password)
      as [[-> _]|(_ & _ & ->)]; [reflexivity|].
    unfold findById. cbn. apply find_app_other. cbn. congruence.
  - rewrite post_signin_run. reflexivity.
  - destruct (post_generate_account_run env d userId)
      as [[-> _]|(u & _ & _ & ->)]; [reflexivity|].
    unfold findById, set_accountNumber_of. cbn.
    apply find_updateOne_other; [reflexivity|exact Hno].
  - destruct (post_transaction_run env d userId type amount)
      as [[-> _]|(u & _ & _ & _ & ->)]; [reflexivity|].
    unfold findById, set_balance_of. cbn.
    apply find_updateOne_other; [reflexivity|exact Hno].
  - destruct (post_transfer_run env d senderId acc amount nm)
      as [[-> _]|(s & t & _ & Ht & _ & _ & ->)]; [reflexivity|].
    unfold findById, set_balance_of. cbn.
    rewrite find_updateOne_other.
    + apply find_updateOne_other; [reflexivity|]. intros E. apply Hno.
      left. exact E.
    + reflexivity.
    + intros E. apply Hno. right. exists t. split; [exact Ht|exact E].
  - rewrite get_transactions_run. reflexivity.
Qed.

Lemma other_accounts_untouched_witness :
  findById 3 (snd (serve env_ok (Transfer 1 "2222222222" 100 "Bob") db_abc))
  = findById 3 db_abc.
Proof.
  apply other_accounts_untouched. cbn.
  intros [H|(B & HB & H)]; [discriminate|].
  injection HB as <-. discriminate.
Defined.
